(** * up-fmap: the FMAP planning adapter ([up_fmap/fmap_planner.py])

    A shallow embedding of [FMAPsolver]: the construction of the command
    line handed to the external FMAP jar ([_manage_parameters],
    [_get_cmd_ma]), the classification of a finished run
    ([_result_status]) and the orchestration in [solve_ma] (temporary
    directory, writer, child process, plan file, result).

    Everything that [fmap_planner.py] imports (pkg_resources, tempfile,
    os.path, subprocess, the unified_planning writer, runners and plan
    parser) is outside the repository; it enters the model through the
    record [Env] and through the POSIX rules of [os_path_join]. *)

From Stdlib Require Import String Ascii ZArith List Bool Lia.
From stdpp Require Import base gmap strings list.

Local Open Scope string_scope.
Local Open Scope list_scope.

(** ** Strings *)

(** Last character of a string, [None] for the empty string
    (what [s[-1:]] inspects in [str.endswith] with a one-character
    argument). *)
Fixpoint last_char (s : string) : option ascii :=
  match s with
  | EmptyString => None
  | String c EmptyString => Some c
  | String _ rest => last_char rest
  end.

(** [s.startswith("/")] and [s.endswith("/")]. *)
Definition startswith_sep (s : string) : bool :=
  match s with
  | String c _ => Ascii.eqb c "/"
  | EmptyString => false
  end.

Definition endswith_sep (s : string) : bool :=
  match last_char s with
  | Some c => Ascii.eqb c "/"
  | None => false
  end.

(** [posixpath.join(a, b)] for two components. *)
Definition os_path_join (a b : string) : string :=
  if startswith_sep b then b
  else if (String.eqb a "" || endswith_sep a)%bool then a +:+ b
  else a +:+ "/" +:+ b.

(** [p] is directory [d] itself or lies below it. *)
Definition under (d p : string) : bool :=
  (String.eqb p d || String.prefix (d +:+ "/") p)%bool.

(** ** The problem and the solver object *)

(** An agent of a multi-agent problem; only its [name] is read here. *)
Record Agent := { name : string }.

(** [MultiAgentProblem]: [problem.agents] is the list of agents in the
    order in which they were added. *)
Record MultiAgentProblem := { agents : list Agent }.

(** What a caller can pass as [problem]: Python checks nothing before the
    [isinstance] assertion of [solve_ma]. *)
Inductive PyValue :=
| VMultiAgentProblem (problem : MultiAgentProblem)
| VOther (repr : string).

(** [FMAPsolver.__init__]: the two optional parameters are stored as
    given; [None] is Python's [None]. *)
Record FMAPsolver := {
  search_algorithm : option string;
  heuristic : option string
}.

(** [FMAPsolver.name]. *)
Definition solver_name (self : FMAPsolver) : string := "FMAP".

(** ** Command line *)

(** [_manage_parameters]: [command += [...]] extends the list at its end. *)
Definition _manage_parameters (self : FMAPsolver) (command : list string)
  : list string :=
  let command :=
    match search_algorithm self with
    | Some alg => command ++ ["-s"; alg]
    | None => command
    end in
  let command :=
    match heuristic self with
    | Some h => command ++ ["-h"; h]
    | None => command
    end in
  command.

Definition directory : string := "ma_pddl_".

(** One iteration of the loop of [_get_cmd_ma]: two [extend] calls. *)
Definition extend_agent (domain_filename problem_filename : string)
    (base_command : list string) (ag : Agent) : list string :=
  let base_command :=
    base_command ++
      [ name ag +:+ "_type";
        directory +:+ domain_filename +:+ name ag +:+ "_domain.pddl" ] in
  base_command ++
    [ directory +:+ problem_filename +:+ name ag +:+ "_problem.pddl" ].

(** [_get_cmd_ma]. [jar] is the value of
    [pkg_resources.resource_filename("up_fmap", "FMAP/FMAP.jar")]. *)
Definition _get_cmd_ma (jar : string) (self : FMAPsolver)
    (problem : MultiAgentProblem)
    (domain_filename problem_filename plan_filename : string)
  : list string :=
  let base_command := ["java"; "-jar"; jar] in
  let base_command :=
    fold_left (extend_agent domain_filename problem_filename)
      (agents problem) base_command in
  _manage_parameters self base_command.

(** The three tokens contributed by one agent. *)
Definition agent_triple (domain_filename problem_filename : string)
    (ag : Agent) : list string :=
  [ name ag +:+ "_type";
    directory +:+ domain_filename +:+ name ag +:+ "_domain.pddl";
    directory +:+ problem_filename +:+ name ag +:+ "_problem.pddl" ].

(** The flag pair of an optional parameter: nothing for [None]. *)
Definition flag_pair (flag : string) (param : option string) : list string :=
  match param with
  | Some v => [flag; v]
  | None => []
  end.

(** ** Results *)

(** [unified_planning.engines.results.PlanGenerationResultStatus]. *)
Inductive PlanGenerationResultStatus :=
| SOLVED_SATISFICING
| SOLVED_OPTIMALLY
| UNSOLVABLE_PROVEN
| UNSOLVABLE_INCOMPLETELY
| TIMEOUT
| MEMOUT
| INTERNAL_ERROR
| UNSUPPORTED_PROBLEM
| INTERMEDIATE.

Inductive LogLevel := DEBUG | INFO | WARNING | ERROR.

Record LogMessage := { level : LogLevel; message : string }.

(** Python exceptions that leave [solve_ma]. *)
Inductive Exn :=
| AssertionError
| UnicodeDecodeError
| ExternalError (what : string).

Inductive Outcome (A : Type) :=
| Ok (a : A)
| Raise (e : Exn).
Arguments Ok {A} a.
Arguments Raise {A} e.

(** [retval != 0] where [retval] is an [int] or [None]: [None != 0]
    is [True]. *)
Definition ne_zero (retval : option Z) : bool :=
  match retval with
  | Some 0%Z => false
  | _ => true
  end.

(** ** The file system and the trace of external calls *)

Record FS := { files : gset string; dirs : gset string }.

Definition isfile (p : string) (f : FS) : bool := bool_decide (p ∈ files f).

Definition mkdir (d : string) (f : FS) : FS :=
  {| files := files f; dirs := {[ d ]} ∪ dirs f |}.

(** [shutil.rmtree(d)]: [d] and everything below it disappear. *)
Definition rmtree (d : string) (f : FS) : FS :=
  {| files := filter (λ p, under d p = false) (files f);
     dirs := filter (λ p, under d p = false) (dirs f) |}.

(** What [Popen.communicate(timeout=...)] does when it does not fail to
    launch: it returns the two buffers once the child has been waited for,
    so that [returncode] is an [int]; or it raises [TimeoutExpired],
    leaving the child alone and [returncode] at its initial [None]. *)
Inductive CommunicateOutcome :=
| Completed (out err : list Byte.byte) (returncode : Z)
| TimeoutExpired.

Definition returncode_of (c : CommunicateOutcome) : option Z :=
  match c with
  | Completed _ _ rc => Some rc
  | TimeoutExpired => None
  end.

(** The event loop [run_command_asyncio] is driven by. *)
Inductive EventLoop := ProactorEventLoop | AsyncioRun.

Inductive Runner := RunAsyncio (loop : EventLoop) | RunPosixSelect.

(** [exec_res]: [(timeout_occurred, (proc_out, proc_err), retval)]. *)
Definition ExecRes : Type := bool * (list string * list string) * option Z.

(** The calls that leave the adapter, in the order they are made. *)
Inductive Event :=
| EvMkdtemp (tempdir : string)
| EvWriteDomain (directory_name : string)
| EvWriteProblem (directory_name : string)
| EvPopen (cmd : list string) (res : Outcome CommunicateOutcome)
| EvRunCommand (runner : Runner) (cmd : list string) (res : Outcome ExecRes)
| EvIsFile (path : string) (found : bool)
| EvPlanFromFile (path : string)
| EvCleanup (tempdir : string).

Record World := { fs : FS; trace : list Event }.

Section Adapter.

(** [float]: the type of [timeout]; [Plan]: [up.plans.Plan]; [Stream]:
    the [IO[str]] sink. None of them is inspected by the adapter. *)
Context {float Plan Stream : Type}.

Record PlanGenerationResult := {
  status : PlanGenerationResultStatus;
  plan : option Plan;
  log_messages : list LogMessage;
  engine_name : string
}.

(** [_result_status]; [problem] and [log_messages] are not read. *)
Definition _result_status (self : FMAPsolver) (problem : MultiAgentProblem)
    (plan : option Plan) (retval : option Z) (log_messages : list LogMessage)
  : PlanGenerationResultStatus :=
  if ne_zero retval then INTERNAL_ERROR
  else match plan with
       | None => UNSOLVABLE_PROVEN
       | Some _ => SOLVED_SATISFICING
       end.

(** An external call: it may change the file system and may raise. *)
Definition Ext (A : Type) : Type := FS -> Outcome A * FS.

(** The imported code and the host, as far as [solve_ma] uses them. *)
Record Env := {
  resource_filename : string -> string -> string;
  platform : string;
  USE_ASYNCIO_ON_UNIX : bool;
  mkdtemp : FS -> string;
  write_ma_domain : MultiAgentProblem -> string -> Ext unit;
  write_ma_problem : MultiAgentProblem -> string -> Ext unit;
  communicate : list string -> option float -> Ext CommunicateOutcome;
  run_command_asyncio :
    EventLoop -> list string -> Stream -> option float -> Ext ExecRes;
  run_command_posix_select :
    list string -> Stream -> option float -> Ext ExecRes;
  _plan_from_file : MultiAgentProblem -> string -> Ext Plan;
  decode : list Byte.byte -> option string
}.

(** ** A state and exception monad over [World] *)

Definition M (A : Type) : Type := World -> Outcome A * World.

Definition ret {A} (a : A) : M A := fun w => (Ok a, w).

Definition raise {A} (e : Exn) : M A := fun w => (Raise e, w).

Definition bind {A B} (m : M A) (k : A -> M B) : M B :=
  fun w =>
    match m w with
    | (Ok a, w') => k a w'
    | (Raise e, w') => (Raise e, w')
    end.

Notation "x <- m ;; k" := (bind m (fun x => k))
  (at level 100, m at next level, right associativity).

(** Record an [Event]. *)
Definition emit (e : Event) : M unit :=
  fun w => (Ok tt, {| fs := fs w; trace := trace w ++ [e] |}).

(** Run an external call on the current file system. *)
Definition call {A} (x : Ext A) : M A :=
  fun w => let '(r, f) := x (fs w) in (r, {| fs := f; trace := trace w |}).

(** As [call], recording the answer (an exception included). *)
Definition call_logged {A} (x : Ext A) (ev : Outcome A -> Event) : M A :=
  fun w =>
    let '(r, f) := x (fs w) in
    (r, {| fs := f; trace := trace w ++ [ev r] |}).

(** [with tempfile.TemporaryDirectory() as tempdir: body]: the directory
    is created on entry and removed when the block is left, whether
    by reaching its end, by [return] or by an exception. *)
Definition with_TemporaryDirectory {A} (env : Env) (body : string -> M A)
  : M A :=
  fun w =>
    let tempdir := mkdtemp env (fs w) in
    let w1 := {| fs := mkdir tempdir (fs w);
                 trace := trace w ++ [EvMkdtemp tempdir] |} in
    let '(r, w2) := body tempdir w1 in
    (r, {| fs := rmtree tempdir (fs w2);
           trace := trace w2 ++ [EvCleanup tempdir] |}).

(** ** [solve_ma] *)

(** Lines 145-156: [Popen] and [communicate] without an output stream.
    [proc_out] and [proc_err] keep their initial [[]] when
    [TimeoutExpired] is caught. *)
Definition run_buffered (env : Env) (cmd : list string)
    (timeout : option float) : M ExecRes :=
  c <- call_logged (communicate env cmd timeout) (EvPopen cmd) ;;
  match c with
  | Completed out err rc =>
      match decode env out, decode env err with
      | Some o, Some e => ret (false, ([o], [e]), returncode_of c)
      | _, _ => raise UnicodeDecodeError
      end
  | TimeoutExpired => ret (true, ([], []), returncode_of c)
  end.

(** Lines 158-182: the runner chosen for the host. *)
Definition select_runner (env : Env) : Runner :=
  if String.eqb (platform env) "win32" then RunAsyncio ProactorEventLoop
  else if USE_ASYNCIO_ON_UNIX env then RunAsyncio AsyncioRun
  else RunPosixSelect.

Definition run_streamed (env : Env) (cmd : list string)
    (output_stream : Stream) (timeout : option float) : M ExecRes :=
  let runner := select_runner env in
  call_logged
    match runner with
    | RunAsyncio loop =>
        run_command_asyncio env loop cmd output_stream timeout
    | RunPosixSelect =>
        run_command_posix_select env cmd output_stream timeout
    end
    (EvRunCommand runner cmd).

(** Lines 142-182: the child process, buffered or streamed. *)
Definition launch (env : Env) (cmd : list string) (timeout : option float)
    (output_stream : option Stream) : M ExecRes :=
  match output_stream with
  | None => run_buffered env cmd timeout
  | Some stream => run_streamed env cmd stream timeout
  end.

(** Lines 188-189: [plan] stays [None] unless the plan file is there. *)
Definition read_plan (env : Env) (problem : MultiAgentProblem)
    (plan_filename : string) : M (option Plan) :=
  found <- (fun w => (Ok (isfile plan_filename (fs w)), w)) ;;
  _ <- emit (EvIsFile plan_filename found) ;;
  if found : bool then
    _ <- emit (EvPlanFromFile plan_filename) ;;
    p <- call (_plan_from_file env problem plan_filename) ;;
    ret (Some p)
  else ret None.

(** [logs] after lines 184-187. *)
Definition logs_of (proc_out proc_err : list string) : list LogMessage :=
  [ {| level := INFO; message := String.concat "" proc_out |};
    {| level := ERROR; message := String.concat "" proc_err |} ].

(** How the [with] block of [solve_ma] is left when nothing is raised. *)
Inductive BlockExit :=
| Returned (result : PlanGenerationResult)
| FellThrough (plan : option Plan) (retval : option Z)
    (logs : list LogMessage).

(** Lines 134-196: the body of the [with] block. *)
Definition solve_ma_block (env : Env) (self : FMAPsolver)
    (problem : MultiAgentProblem) (timeout : option float)
    (output_stream : option Stream) (tempdir : string) : M BlockExit :=
  let domain_filename := os_path_join tempdir "domain.pddl/" in
  let problem_filename := os_path_join tempdir "problem.pddl/" in
  let plan_filename := os_path_join tempdir "plan.txt" in
  _ <- emit (EvWriteDomain domain_filename) ;;
  _ <- call (write_ma_domain env problem domain_filename) ;;
  _ <- emit (EvWriteProblem problem_filename) ;;
  _ <- call (write_ma_problem env problem problem_filename) ;;
  let cmd :=
    _get_cmd_ma (resource_filename env "up_fmap" "FMAP/FMAP.jar") self
      problem domain_filename problem_filename plan_filename in
  exec_res <- launch env cmd timeout output_stream ;;
  let '(timeout_occurred, (proc_out, proc_err), retval) := exec_res in
  let logs := logs_of proc_out proc_err in
  plan <- read_plan env problem plan_filename ;;
  if (timeout_occurred && ne_zero retval)%bool then
    ret (Returned {| status := TIMEOUT; plan := plan;
                     log_messages := logs;
                     engine_name := solver_name self |})
  else ret (FellThrough plan retval logs).

(** [solve_ma]. [callback] and the [heuristic] argument are never read
    and are left out. *)
Definition solve_ma (env : Env) (self : FMAPsolver) (problem : PyValue)
    (timeout : option float) (output_stream : option Stream)
  : M PlanGenerationResult :=
  match problem with
  | VOther _ => raise AssertionError
  | VMultiAgentProblem problem =>
      b <- with_TemporaryDirectory env
             (solve_ma_block env self problem timeout output_stream) ;;
      match b with
      | Returned result => ret result
      | FellThrough plan retval logs =>
          let status := _result_status self problem plan retval logs in
          ret {| status := status; plan := plan; log_messages := logs;
                 engine_name := solver_name self |}
      end
  end.

End Adapter.

(** ** The classification table of the specification *)

(** The four rows of the outcome table, read from top to bottom:
    timeout and nonzero exit code; nonzero exit code; exit code 0 without
    plan file; exit code 0 with plan file. *)
Definition classification (timeout_occurred : bool) (retval : option Z)
    (plan_file_found : bool) : PlanGenerationResultStatus :=
  if (timeout_occurred && ne_zero retval)%bool then TIMEOUT
  else if ne_zero retval then INTERNAL_ERROR
  else if plan_file_found then SOLVED_SATISFICING
  else UNSOLVABLE_PROVEN.

(** What a run shows of its child process, [(timeout_occurred, retval)],
    and of the plan file. *)
Definition exec_observed (e : Event) : option (bool * option Z) :=
  match e with
  | EvPopen _ (Ok c) =>
      Some (match c with TimeoutExpired => true | _ => false end,
            returncode_of c)
  | EvRunCommand _ _ (Ok (timeout_occurred, _, retval)) =>
      Some (timeout_occurred, retval)
  | _ => None
  end.

Definition isfile_observed (e : Event) : option bool :=
  match e with
  | EvIsFile _ found => Some found
  | _ => None
  end.

(** The reading of "non-empty" under which an empty string counts as
    empty: a flag may occur in the command only for a parameter that is
    set to a string other than [""]. *)
Definition flag_only_if_nonempty (flag : string) (param : option string)
    (cmd : list string) : Prop :=
  In flag cmd -> exists v, param = Some v /\ v <> "".

(** The events of one run of [solve_ma] that raises nothing: [ev] is the
    child process, [found] the answer of [os.path.isfile]. *)
Definition run_trace (tempdir : string) (ev : Event) (found : bool)
  : list Event :=
  let plan_filename := os_path_join tempdir "plan.txt" in
  [ EvMkdtemp tempdir;
    EvWriteDomain (os_path_join tempdir "domain.pddl/");
    EvWriteProblem (os_path_join tempdir "problem.pddl/");
    ev;
    EvIsFile plan_filename found ]
  ++ (if found then [EvPlanFromFile plan_filename] else [])
  ++ [EvCleanup tempdir].

(** ** A fabricated environment

    A host on which the writer does nothing, the child process behaves
    as scripted and, when [writes_plan] is set, leaves a file at
    [/tmp/tmpfmap/plan.txt]; plans are lists of action names. *)
Module Fabricated.

Definition touch (p : string) (f : FS) : FS :=
  {| files := {[ p ]} ∪ files f; dirs := dirs f |}.

Definition after_child (writes_plan : bool) (f : FS) : FS :=
  if writes_plan then touch "/tmp/tmpfmap/plan.txt" f else f.

Definition env (script : CommunicateOutcome) (streamed : ExecRes)
    (writes_plan : bool) : @Env Z (list string) unit :=
  {| resource_filename pkg res := "/site-packages/" +:+ pkg +:+ "/" +:+ res;
     platform := "linux";
     USE_ASYNCIO_ON_UNIX := false;
     mkdtemp _ := "/tmp/tmpfmap";
     write_ma_domain _ _ f := (Ok tt, f);
     write_ma_problem _ _ f := (Ok tt, f);
     communicate _ _ f := (Ok script, after_child writes_plan f);
     run_command_asyncio _ _ _ _ f := (Ok streamed, after_child writes_plan f);
     run_command_posix_select _ _ _ f :=
       (Ok streamed, after_child writes_plan f);
     _plan_from_file _ _ f := (Ok ["a1 move"], f);
     decode bs := Some (string_of_list_byte bs) |}.

Definition jar : string := "/site-packages/up_fmap/FMAP/FMAP.jar".

Definition tmp : string := "/tmp/tmpfmap".

Definition two_agents : MultiAgentProblem :=
  {| agents := [ {| name := "a1" |}; {| name := "a2" |} ] |}.

Definition plain : FMAPsolver :=
  {| search_algorithm := None; heuristic := None |}.

Definition tuned : FMAPsolver :=
  {| search_algorithm := Some "FMAP"; heuristic := Some "DTG" |}.

(** [FMAPsolver(search_algorithm="")]. *)
Definition empty_algorithm : FMAPsolver :=
  {| search_algorithm := Some ""; heuristic := None |}.

Definition w0 : World :=
  {| fs := {| files := ∅; dirs := {[ "/tmp" ]} |}; trace := [] |}.

Definition exit0 : CommunicateOutcome := Completed [] [] 0.

Definition killed : ExecRes := (true, (["searching"], []), Some (-9)%Z).

(** The events of a buffered run of [tuned] whose child exits 0 and
    leaves no plan file. *)
Definition quiet_run : list Event :=
  run_trace tmp
    (EvPopen
       (_get_cmd_ma jar tuned two_agents (os_path_join tmp "domain.pddl/")
          (os_path_join tmp "problem.pddl/") (os_path_join tmp "plan.txt"))
       (Ok exit0))
    false.

(** [FMAPsolver(search_algorithm="--plan=/tmp/tmpfmap/plan.txt")]. *)
Definition plan_in_algorithm : FMAPsolver :=
  {| search_algorithm := Some "--plan=/tmp/tmpfmap/plan.txt";
     heuristic := None |}.

(** A child that exits with status 137. *)
Definition exit137 : CommunicateOutcome := Completed [] [] 137.

(** A host whose writer, child, parser and decoder answer as given; the
    child always leaves a plan file. *)
Definition faulty (domain_writer problem_writer : Outcome unit)
    (child : Outcome CommunicateOutcome) (parser : Outcome (list string))
    (decodable : bool) : @Env Z (list string) unit :=
  {| resource_filename pkg res := "/site-packages/" +:+ pkg +:+ "/" +:+ res;
     platform := "linux";
     USE_ASYNCIO_ON_UNIX := false;
     mkdtemp _ := "/tmp/tmpfmap";
     write_ma_domain _ _ f := (domain_writer, f);
     write_ma_problem _ _ f := (problem_writer, f);
     communicate _ _ f := (child, touch "/tmp/tmpfmap/plan.txt" f);
     run_command_asyncio _ _ _ _ f := (Ok killed, f);
     run_command_posix_select _ _ _ f := (Ok killed, f);
     _plan_from_file _ _ f := (parser, f);
     decode bs := if decodable then Some (string_of_list_byte bs) else None
  |}.

Definition disk_full : Exn := ExternalError "No space left on device".

Definition no_java : Exn := ExternalError "No such file or directory: java".

Definition bad_plan : Exn := ExternalError "plan.txt: syntax error".

End Fabricated.

(** ** Substrings *)

(** The characters of a string. *)
Definition chars (s : string) : list ascii := list_ascii_of_string s.

(** [s.startswith(w)] on characters. *)
Fixpoint is_prefix (w s : list ascii) : bool :=
  match w, s with
  | [], _ => true
  | _ :: _, [] => false
  | a :: w', b :: s' => Ascii.eqb a b && is_prefix w' s'
  end.

(** [w] occurs in [s] at some position. *)
Fixpoint occurs (w s : list ascii) : bool :=
  is_prefix w s
  || match s with
     | [] => false
     | _ :: s' => occurs w s'
     end.

(** Python's [needle in hay] on strings. *)
Definition contains (needle hay : string) : bool :=
  occurs (chars needle) (chars hay).

(** No token of a command contains [needle]. *)
Definition no_token_contains (needle : string) (cmd : list string) : Prop :=
  forall tok, In tok cmd -> contains needle tok = false.

(** What [os_path_join] puts before a second component that does not
    start with a slash. *)
Definition join_prefix (a : string) : string :=
  if (String.eqb a "" || endswith_sep a)%bool then a else a +:+ "/".

(** [plan.txt] as characters. *)
Definition plan_txt : list ascii := chars "plan.txt".

(** An external call that leaves the file system as it found it. *)
Definition fs_neutral {A : Type} (x : FS -> Outcome A * FS) : Prop :=
  forall f, snd (x f) = f.

(** Nothing exists at [d] or below it. *)
Definition vacant (d : string) (f : FS) : Prop :=
  forall p, under d p = true -> (p ∉ files f) /\ (p ∉ dirs f).

(** An environment none of whose calls changes the file system. *)
Definition read_only_env {float Plan Stream : Type}
    (env : @Env float Plan Stream) : Prop :=
  (forall pb s, fs_neutral (write_ma_domain env pb s))
  /\ (forall pb s, fs_neutral (write_ma_problem env pb s))
  /\ (forall c t, fs_neutral (communicate env c t))
  /\ (forall l c s t, fs_neutral (run_command_asyncio env l c s t))
  /\ (forall c s t, fs_neutral (run_command_posix_select env c s t))
  /\ (forall pb s, fs_neutral (_plan_from_file env pb s)).

(** A computation of the adapter that leaves the file system alone. *)
Definition keeps_fs {A : Type} (m : World -> Outcome A * World) : Prop :=
  forall w, fs (snd (m w)) = fs w.

(** ** Command line: proofs *)

Lemma fold_extend_agent (d p : string) (ags : list Agent) :
  forall base,
    fold_left (extend_agent d p) ags base
    = base ++ concat (map (agent_triple d p) ags).
Proof.
  induction ags as [|ag ags IH]; intros base; simpl.
  - by rewrite app_nil_r.
  - rewrite IH. unfold extend_agent, agent_triple.
    by rewrite <- !app_assoc.
Qed.

Lemma manage_parameters_flags (self : FMAPsolver) (command : list string) :
  _manage_parameters self command
  = command ++ flag_pair "-s" (search_algorithm self)
            ++ flag_pair "-h" (heuristic self).
Proof.
  unfold _manage_parameters, flag_pair.
  destruct (search_algorithm self), (heuristic self); simpl;
    rewrite <- ?app_assoc, ?app_nil_r; reflexivity.
Qed.

Lemma get_cmd_ma_eq jar self problem d p pl :
  _get_cmd_ma jar self problem d p pl
  = ["java"; "-jar"; jar]
      ++ concat (map (agent_triple d p) (agents problem))
      ++ flag_pair "-s" (search_algorithm self)
      ++ flag_pair "-h" (heuristic self).
Proof.
  unfold _get_cmd_ma.
  rewrite manage_parameters_flags, fold_extend_agent.
  by rewrite <- !app_assoc.
Qed.

Lemma triples_length d p (ags : list Agent) :
  length (concat (map (agent_triple d p) ags)) = 3 * length ags.
Proof. induction ags as [|ag ags IH]; simpl; [reflexivity | lia]. Qed.

Lemma triples_lookup d p (ags : list Agent) :
  forall (i : nat) (ag : Agent),
    ags !! i = Some ag ->
    forall rest : list string,
      (concat (map (agent_triple d p) ags) ++ rest) !! (3 * i)
        = Some (name ag +:+ "_type")
      /\ (concat (map (agent_triple d p) ags) ++ rest) !! (3 * i + 1)
        = Some (directory +:+ d +:+ name ag +:+ "_domain.pddl")
      /\ (concat (map (agent_triple d p) ags) ++ rest) !! (3 * i + 2)
        = Some (directory +:+ p +:+ name ag +:+ "_problem.pddl").
Proof.
  induction ags as [|a ags IH]; intros i ag Hi rest; [done|].
  destruct i as [|i]; simpl in Hi.
  - injection Hi as ->. done.
  - destruct (IH i ag Hi rest) as (H0 & H1 & H2).
    replace (3 * S i) with (S (S (S (3 * i)))) by lia.
    simpl. auto.
Qed.

(** C2. For a problem with N agents, [_get_cmd_ma] returns the base
    invocation [java -jar <jar>], then exactly N consecutive triples
    (the agent's name suffixed with "_type", its domain path, its problem
    path), one per agent in the order of [problem.agents], then nothing
    but the optional [-s] and [-h] pairs. *)
Theorem get_cmd_ma_triples :
  forall jar self problem d p pl,
    let triples := concat (map (agent_triple d p) (agents problem)) in
    let cmd := _get_cmd_ma jar self problem d p pl in
    cmd = ["java"; "-jar"; jar] ++ triples
            ++ flag_pair "-s" (search_algorithm self)
            ++ flag_pair "-h" (heuristic self)
    /\ length triples = 3 * length (agents problem)
    /\ forall (i : nat) (ag : Agent),
         agents problem !! i = Some ag ->
         cmd !! (3 + 3 * i) = Some (name ag +:+ "_type")
         /\ cmd !! (3 + 3 * i + 1)
            = Some (directory +:+ d +:+ name ag +:+ "_domain.pddl")
         /\ cmd !! (3 + 3 * i + 2)
            = Some (directory +:+ p +:+ name ag +:+ "_problem.pddl").
Proof.
  intros jar self problem d p pl triples cmd.
  split; [apply get_cmd_ma_eq|].
  split; [apply triples_length|].
  intros i ag Hi. subst cmd. rewrite get_cmd_ma_eq.
  exact (triples_lookup d p (agents problem) i ag Hi _).
Qed.

(** *** Tokens and their last character *)

Lemma append_nonempty (s t : string) : t <> "" -> s +:+ t <> "".
Proof.
  destruct s; intros Ht; [exact Ht|].
  change (String a s +:+ t) with (String a (s +:+ t)). discriminate.
Qed.

Lemma last_char_app (s t : string) :
  t <> "" -> last_char (s +:+ t) = last_char t.
Proof.
  intros Ht. induction s as [|c s IH]; [reflexivity|].
  change (String c s +:+ t) with (String c (s +:+ t)).
  pose proof (append_nonempty s t Ht) as Hne.
  destruct (s +:+ t) eqn:E; [done|].
  exact IH.
Qed.

Lemma cmd_token jar self problem d p pl (tok : string) :
  In tok (_get_cmd_ma jar self problem d p pl) ->
  tok = "java" \/ tok = "-jar" \/ tok = jar
  \/ (exists ag, In ag (agents problem) /\ In tok (agent_triple d p ag))
  \/ In tok (flag_pair "-s" (search_algorithm self))
  \/ In tok (flag_pair "-h" (heuristic self)).
Proof.
  rewrite get_cmd_ma_eq. rewrite !in_app_iff. simpl.
  intros [H | [H | [H | H]]].
  - destruct H as [<- | [<- | [<- | []]]]; auto.
  - right; right; right; left.
    apply in_concat in H as (l & Hl & Htok).
    apply in_map_iff in Hl as (ag & <- & Hag). eauto.
  - auto 6.
  - auto 6.
Qed.

Lemma triple_last_char d p ag tok :
  In tok (agent_triple d p ag) ->
  last_char tok = Some "e"%char \/ last_char tok = Some "l"%char.
Proof.
  unfold agent_triple. simpl. intros [<- | [<- | [<- | []]]].
  - left. rewrite last_char_app; [reflexivity | discriminate].
  - right.
    rewrite !last_char_app by (repeat apply append_nonempty; discriminate).
    reflexivity.
  - right.
    rewrite !last_char_app by (repeat apply append_nonempty; discriminate).
    reflexivity.
Qed.

Lemma triple_not_flag d p ag tok :
  In tok (agent_triple d p ag) -> tok <> "-s" /\ tok <> "-h".
Proof.
  intros H. apply triple_last_char in H.
  split; intros ->; simpl in H; destruct H; discriminate.
Qed.

(** C3, as the code has it. The guard of [_manage_parameters] is
    [is not None]:
    a parameter left at [None] adds no flag pair, so that the command has
    no [-s] (resp. [-h]) token unless the jar path or the value of the
    other parameter is that very string; a parameter that is set adds
    [-s <value>] (resp. [-h <value>]) whatever the value, the empty
    string included. *)
Theorem flag_appended_iff_set :
  forall jar self problem d p pl,
    let cmd := _get_cmd_ma jar self problem d p pl in
    (search_algorithm self = None -> jar <> "-s" ->
     heuristic self <> Some "-s" -> ~ In "-s" cmd)
    /\ (heuristic self = None -> jar <> "-h" ->
        search_algorithm self <> Some "-h" -> ~ In "-h" cmd)
    /\ (forall alg, search_algorithm self = Some alg ->
        exists pre post, cmd = pre ++ ["-s"; alg] ++ post)
    /\ (forall h, heuristic self = Some h ->
        exists pre, cmd = pre ++ ["-h"; h]).
Proof.
  intros jar self problem d p pl cmd. repeat split.
  - intros Hs Hjar Hh Hin. apply cmd_token in Hin.
    rewrite Hs in Hin. simpl in Hin.
    destruct Hin as [H | [H | [H | [(ag & _ & H) | [[] | H]]]]];
      try discriminate; try congruence.
    + by apply triple_not_flag in H as [? _].
    + destruct (heuristic self) as [h|]; simpl in H; [|done].
      destruct H as [H | [H | []]]; [discriminate | congruence].
  - intros Hh Hjar Hs Hin. apply cmd_token in Hin.
    rewrite Hh in Hin. simpl in Hin.
    destruct Hin as [H | [H | [H | [(ag & _ & H) | [H | []]]]]];
      try discriminate; try congruence.
    + by apply triple_not_flag in H as [_ ?].
    + destruct (search_algorithm self) as [a|]; simpl in H; [|done].
      destruct H as [H | [H | []]]; [discriminate | congruence].
  - intros alg Hs. subst cmd. rewrite get_cmd_ma_eq, Hs. simpl.
    exists (["java"; "-jar"; jar]
              ++ concat (map (agent_triple d p) (agents problem))),
      (flag_pair "-h" (heuristic self)).
    by rewrite <- !app_assoc.
  - intros h Hh. subst cmd. rewrite get_cmd_ma_eq, Hh. simpl.
    exists (["java"; "-jar"; jar]
              ++ concat (map (agent_triple d p) (agents problem))
              ++ flag_pair "-s" (search_algorithm self)).
    by rewrite <- !app_assoc.
Qed.

(** *** Substrings *)

Lemma chars_app (s t : string) : chars (s +:+ t) = chars s ++ chars t.
Proof.
  induction s as [|c s IH]; [reflexivity|].
  change (String c s +:+ t) with (String c (s +:+ t)).
  unfold chars in *. simpl. by rewrite IH.
Qed.

Lemma is_prefix_spec (w s : list ascii) :
  is_prefix w s = true <-> exists post, s = w ++ post.
Proof.
  revert s. induction w as [|a w IH]; intros s; simpl.
  - split; [eauto | done].
  - destruct s as [|b s].
    + split; [discriminate | intros [post H]; discriminate].
    + rewrite andb_true_iff, Ascii.eqb_eq, IH. split.
      * intros [-> [post ->]]. eauto.
      * intros [post H]. injection H as -> ->. eauto.
Qed.

Lemma occurs_spec (w s : list ascii) :
  occurs w s = true <-> exists pre post, s = pre ++ w ++ post.
Proof.
  induction s as [|b s IH]; simpl.
  - rewrite orb_false_r, is_prefix_spec. split.
    + intros [post H]. exists [], post. exact H.
    + intros (pre & post & H). destruct pre; [eauto|discriminate].
  - rewrite orb_true_iff, is_prefix_spec, IH. split.
    + intros [[post H] | (pre & post & ->)].
      * exists [], post. exact H.
      * exists (b :: pre), post. reflexivity.
    + intros (pre & post & H). destruct pre as [|c pre].
      * left. eauto.
      * right. injection H as -> ->. eauto.
Qed.

Lemma occurs_false (w s pre post : list ascii) :
  occurs w s = false -> s = pre ++ w ++ post -> False.
Proof.
  intros Hocc H.
  assert (occurs w s = true) by (apply occurs_spec; eauto). congruence.
Qed.

(** An occurrence of [w] in [a ++ b] lies in [a], lies in [b], or
    straddles the seam. *)
Lemma occurs_app_cases (a b pre w post : list ascii) :
  a ++ b = pre ++ w ++ post ->
  (exists post', a = pre ++ w ++ post')
  \/ (exists pre', b = pre' ++ w ++ post)
  \/ (exists u v a' b',
        u <> [] /\ v <> [] /\ w = u ++ v /\ a = a' ++ u /\ b = v ++ b').
Proof.
  intros H. apply app_eq_app in H as [l [[-> H] | [-> H]]].
  - (* a = pre ++ l *)
    apply app_eq_app in H as [m [[-> ->] | [-> ->]]].
    + (* w = l ++ m, b = m ++ post *)
      destruct l as [|c l].
      * right; left. exists []. reflexivity.
      * destruct m as [|d m].
        -- left. exists []. by rewrite !app_nil_r.
        -- right; right. exists (c :: l), (d :: m), pre, post. done.
    + left. eauto.
  - right; left. exists l. exact H.
Qed.

Lemma plan_txt_proper_suffix (u v : list ascii) :
  plan_txt = u ++ v -> u <> [] -> v <> [] ->
  exists c v', v = c :: v' /\ In c (chars "lan.txt").
Proof.
  intros H Hu Hv. destruct v as [|c v']; [done|].
  destruct u as [|a u]; [done|].
  exists c, v'. split; [reflexivity|].
  injection H as _ H.
  assert (Hin : In c (u ++ c :: v')) by apply in_elt.
  rewrite <- H in Hin. exact Hin.
Qed.

Lemma plan_txt_proper_prefix (u v : list ascii) :
  plan_txt = u ++ v -> u <> [] -> v <> [] ->
  exists c, last u = Some c /\ In c (chars "plan.tx").
Proof.
  intros H Hu Hv.
  destruct u as [|a u] using rev_ind; [done|]. clear IHu.
  destruct v as [|e v] using rev_ind; [done|]. clear IHv.
  exists a. split; [apply last_snoc|].
  change plan_txt with (chars "plan.tx" ++ ["t"%char]) in H.
  rewrite app_assoc in H. apply app_inj_tail in H as [H _].
  assert (Hin : In a ((u ++ [a]) ++ v)).
  { rewrite <- app_assoc. apply in_elt. }
  rewrite <- H in Hin. exact Hin.
Qed.

Section PathToken.

(** A path token [ma_pddl_ ++ X ++ C1 ++ N ++ C2]: [X] is the part of the
    file name that comes from the temporary directory, [C1] the fixed
    directory name, [N] the agent's name and [C2] the fixed suffix. *)
Variables C1 C2 : list ascii.
Variables (h1 e1 h2 : ascii) (t1 i1 t2 : list ascii).
Hypothesis C1_head : C1 = h1 :: t1.
Hypothesis C1_last : C1 = i1 ++ [e1].
Hypothesis C2_head : C2 = h2 :: t2.
Hypothesis h1_clash : ~ In h1 (chars "lan.txt").
Hypothesis h2_clash : ~ In h2 (chars "lan.txt").
Hypothesis e1_clash : ~ In e1 (chars "plan.tx").
Hypothesis C1_free : occurs plan_txt C1 = false.
Hypothesis C2_free : occurs plan_txt C2 = false.

Lemma tail_free (N pre post : list ascii) :
  occurs plan_txt N = false ->
  N ++ C2 = pre ++ plan_txt ++ post -> False.
Proof.
  intros HN H. apply occurs_app_cases in H
    as [[post' H] | [[pre' H] | (u & v & a' & b' & Hu & Hv & Hw & _ & Hb)]].
  - exact (occurs_false _ _ _ _ HN H).
  - exact (occurs_false _ _ _ _ C2_free H).
  - destruct (plan_txt_proper_suffix u v Hw Hu Hv) as (c & v' & -> & Hc).
    rewrite C2_head in Hb. injection Hb as -> _. done.
Qed.

Lemma rest_free (N pre post : list ascii) :
  occurs plan_txt N = false ->
  C1 ++ N ++ C2 = pre ++ plan_txt ++ post -> False.
Proof.
  intros HN H. apply occurs_app_cases in H
    as [[post' H] | [[pre' H] | (u & v & a' & b' & Hu & Hv & Hw & Ha & _)]].
  - exact (occurs_false _ _ _ _ C1_free H).
  - exact (tail_free N pre' post HN H).
  - destruct (plan_txt_proper_prefix u v Hw Hu Hv) as (c & Hlast & Hc).
    assert (Hl : last C1 = Some c).
    { rewrite Ha, last_app, Hlast. reflexivity. }
    rewrite C1_last, last_snoc in Hl. injection Hl as ->. done.
Qed.

Lemma x_count (X pre m : list ascii) :
  chars "ma_pddl_" ++ X = pre ++ X ++ plan_txt ++ m -> False.
Proof.
  intros H.
  apply (f_equal (fun l => count_occ ascii_dec l "x"%char)) in H.
  rewrite !count_occ_app in H.
  change (count_occ ascii_dec (chars "ma_pddl_") "x"%char) with 0 in H.
  change (count_occ ascii_dec plan_txt "x"%char) with 1 in H.
  lia.
Qed.

Lemma path_token_free (X N pre post : list ascii) :
  occurs plan_txt N = false ->
  chars "ma_pddl_" ++ X ++ C1 ++ N ++ C2
  = pre ++ (X ++ plan_txt) ++ post ->
  False.
Proof.
  intros HN H.
  rewrite <- (app_assoc X plan_txt post) in H.
  rewrite (app_assoc _ X (C1 ++ _)), (app_assoc pre X) in H.
  apply app_eq_app in H as [l [[H1 H2] | [H1 H2]]].
  - (* the occurrence of [plan.txt] starts before [C1] *)
    symmetry in H2. apply app_eq_app in H2 as [m [[Hl Hp] | [Hw Hr]]].
    + (* [l = plan_txt ++ m] *)
      rewrite Hl, <- !app_assoc in H1. exact (x_count _ _ _ H1).
    + (* [plan_txt = l ++ m], [C1 ++ N ++ C2 = m ++ post] *)
      destruct m as [|c m].
      * rewrite app_nil_r in Hw. subst l.
        rewrite <- !app_assoc in H1.
        apply (x_count X pre []). by rewrite app_nil_r.
      * destruct l as [|d l].
        -- simpl in Hw. rewrite <- Hw in Hr.
           exact (rest_free N [] post HN Hr).
        -- destruct (plan_txt_proper_suffix (d :: l) (c :: m) Hw)
             as (c' & v' & Hv & Hc); [done | done |].
           injection Hv as <- <-.
           rewrite C1_head in Hr. injection Hr as -> _. done.
  - (* it starts in [C1] or later *)
    exact (rest_free N l post HN H2).
Qed.

End PathToken.

Lemma chars_join (a b : string) :
  startswith_sep b = false ->
  chars (os_path_join a b) = chars (join_prefix a) ++ chars b.
Proof.
  intros Hb. unfold os_path_join, join_prefix. rewrite Hb.
  destruct (_ || _)%bool; rewrite !chars_app; [reflexivity|].
  by rewrite <- app_assoc.
Qed.

Lemma contains_false (needle hay : string) :
  (forall pre post, chars hay = pre ++ chars needle ++ post -> False) ->
  contains needle hay = false.
Proof.
  intros H. unfold contains.
  destruct (occurs (chars needle) (chars hay)) eqn:E; [|reflexivity].
  apply occurs_spec in E as (pre & post & E). destruct (H pre post E).
Qed.

Lemma short_token_free (tok : string) (X pre post : list ascii) :
  length (chars tok) < 8 ->
  chars tok = pre ++ (X ++ plan_txt) ++ post -> False.
Proof.
  intros Hlen H. apply (f_equal (@length ascii)) in H.
  rewrite !length_app in H.
  change (length plan_txt) with 8 in H. lia.
Qed.

Lemma type_token_free (n : string) (X pre post : list ascii) :
  contains "plan.txt" n = false ->
  chars (n +:+ "_type") = pre ++ (X ++ plan_txt) ++ post -> False.
Proof.
  intros Hn H. rewrite chars_app, <- app_assoc, app_assoc in H.
  eapply (tail_free (chars "_type") "_"%char (chars "type"));
    [reflexivity | | reflexivity | exact Hn | exact H].
  simpl. intuition discriminate.
Qed.

Lemma domain_token_free (tempdir n : string) (pre post : list ascii) :
  contains "plan.txt" n = false ->
  chars (directory +:+ os_path_join tempdir "domain.pddl/" +:+ n
           +:+ "_domain.pddl")
  = pre ++ chars (os_path_join tempdir "plan.txt") ++ post ->
  False.
Proof.
  intros Hn H.
  rewrite !chars_app, !chars_join, <- !app_assoc in H by reflexivity.
  rewrite (app_assoc (chars (join_prefix tempdir)) (chars "plan.txt")) in H.
  eapply (path_token_free (chars "domain.pddl/") (chars "_domain.pddl")
            "d"%char "/"%char "_"%char (chars "omain.pddl/")
            (chars "domain.pddl") (chars "domain.pddl"));
    [reflexivity | reflexivity | reflexivity | | | | reflexivity
     | reflexivity | exact Hn | exact H];
    simpl; intuition discriminate.
Qed.

Lemma problem_token_free (tempdir n : string) (pre post : list ascii) :
  contains "plan.txt" n = false ->
  chars (directory +:+ os_path_join tempdir "problem.pddl/" +:+ n
           +:+ "_problem.pddl")
  = pre ++ chars (os_path_join tempdir "plan.txt") ++ post ->
  False.
Proof.
  intros Hn H.
  rewrite !chars_app, !chars_join, <- !app_assoc in H by reflexivity.
  rewrite (app_assoc (chars (join_prefix tempdir)) (chars "plan.txt")) in H.
  eapply (path_token_free (chars "problem.pddl/") (chars "_problem.pddl")
            "p"%char "/"%char "_"%char (chars "roblem.pddl/")
            (chars "problem.pddl") (chars "problem.pddl"));
    [reflexivity | reflexivity | reflexivity | | | | reflexivity
     | reflexivity | exact Hn | exact H];
    simpl; intuition discriminate.
Qed.

(** C10, as the code has it. [_get_cmd_ma] does not use its
    [plan_filename] argument: the command is the same for any other
    value. With the paths [solve_ma] passes, no token of the command
    contains [<tempdir>/plan.txt], provided the strings that come from
    outside do not bring it in: the jar location and the values of the
    two parameters do not contain that path, and no agent name contains
    [plan.txt]. *)
Theorem plan_filename_in_no_token :
  forall jar self problem tempdir,
    let domain_filename := os_path_join tempdir "domain.pddl/" in
    let problem_filename := os_path_join tempdir "problem.pddl/" in
    let plan_filename := os_path_join tempdir "plan.txt" in
    let cmd := _get_cmd_ma jar self problem domain_filename
                 problem_filename plan_filename in
    (forall other,
        _get_cmd_ma jar self problem domain_filename problem_filename other
        = cmd)
    /\ (contains plan_filename jar = false ->
        (forall alg, search_algorithm self = Some alg ->
                     contains plan_filename alg = false) ->
        (forall h, heuristic self = Some h ->
                   contains plan_filename h = false) ->
        (forall ag, In ag (agents problem) ->
                    contains "plan.txt" (name ag) = false) ->
        no_token_contains plan_filename cmd).
Proof.
  intros jar self problem tempdir dom prob planf cmd. split.
  - intros other. subst cmd. by rewrite !get_cmd_ma_eq.
  - intros Hjar Hs Hh Hag tok Hin.
    apply cmd_token in Hin.
    assert (Hshort : forall t : string,
               length (chars t) < 8 -> contains planf t = false).
    { intros t Ht. apply contains_false. intros pre post H.
      unfold planf in H. rewrite chars_join in H by reflexivity.
      exact (short_token_free t _ pre post Ht H). }
    destruct Hin as [-> | [-> | [-> | [(ag & Hag' & H) | [H | H]]]]].
    + apply Hshort. simpl. lia.
    + apply Hshort. simpl. lia.
    + exact Hjar.
    + specialize (Hag ag Hag'). unfold agent_triple in H. simpl in H.
      destruct H as [<- | [<- | [<- | []]]];
        apply contains_false; intros pre post H.
      * unfold planf in H. rewrite chars_join in H by reflexivity.
        exact (type_token_free _ _ pre post Hag H).
      * exact (domain_token_free tempdir _ pre post Hag H).
      * exact (problem_token_free tempdir _ pre post Hag H).
    + destruct (search_algorithm self) as [alg|]; simpl in H; [|done].
      destruct H as [<- | [<- | []]]; [apply Hshort; simpl; lia | eauto].
    + destruct (heuristic self) as [h|]; simpl in H; [|done].
      destruct H as [<- | [<- | []]]; [apply Hshort; simpl; lia | eauto].
Qed.

(** ** The adapter: proofs *)

Section AdapterFacts.
Context {float Plan Stream : Type}.
Variable env : @Env float Plan Stream.

Lemma bind_inv {A B} (m : M A) (k : A -> M B) w b w1 :
  bind m k w = (Ok b, w1) ->
  exists a w0, m w = (Ok a, w0) /\ k a w0 = (Ok b, w1).
Proof.
  unfold bind. destruct (m w) as [[a|e] w0]; [eauto | discriminate].
Qed.

Lemma bind_ok {A B} (m : M A) (k : A -> M B) w a w0 :
  m w = (Ok a, w0) -> bind m k w = k a w0.
Proof. unfold bind. by intros ->. Qed.

Lemma launch_inv cmd timeout os w tmo out err rv w1 :
  launch env cmd timeout os w = (Ok (tmo, (out, err), rv), w1) ->
  exists ev,
    trace w1 = trace w ++ [ev] /\ exec_observed ev = Some (tmo, rv).
Proof.
  unfold launch, run_buffered, run_streamed, call_logged, bind, ret, raise.
  destruct os as [stream|].
  - destruct (select_runner env) as [loop|].
    + destruct (run_command_asyncio env loop cmd stream timeout (fs w))
        as [[[[t [o e]] r]|x] f] eqn:E; intros H; [|discriminate].
      injection H as -> -> -> -> <-. simpl. eauto.
    + destruct (run_command_posix_select env cmd stream timeout (fs w))
        as [[[[t [o e]] r]|x] f] eqn:E; intros H; [|discriminate].
      injection H as -> -> -> -> <-. simpl. eauto.
  - destruct (communicate env cmd timeout (fs w)) as [[c|x] f] eqn:E;
      [|discriminate].
    destruct c as [o e rc|].
    + destruct (decode env o), (decode env e); intros H; try discriminate.
      injection H as <- <- <- <- <-. simpl. eauto.
    + intros H. injection H as <- <- <- <- <-. simpl. eauto.
Qed.

Lemma read_plan_inv pb planf w pl w1 :
  read_plan env pb planf w = (Ok pl, w1) ->
  let found := isfile planf (fs w) in
  trace w1
  = trace w ++ EvIsFile planf found
      :: (if found then [EvPlanFromFile planf] else [])
  /\ (if found
      then exists p, _plan_from_file env pb planf (fs w) = (Ok p, fs w1)
                     /\ pl = Some p
      else pl = None /\ fs w1 = fs w).
Proof.
  unfold read_plan, bind, emit, call, ret. simpl.
  destruct (isfile planf (fs w)) eqn:Hf; simpl.
  - destruct (_plan_from_file env pb planf (fs w)) as [[p|x] f] eqn:E;
      intros H; [|discriminate].
    injection H as <- <-. simpl. rewrite <- app_assoc. eauto.
  - intros H. injection H as <- <-. simpl. auto.
Qed.

Lemma solve_ma_block_inv self pb timeout os d w b w1 :
  solve_ma_block env self pb timeout os d w = (Ok b, w1) ->
  exists ev tmo out err rv pl f_check,
    let planf := os_path_join d "plan.txt" in
    let found := isfile planf f_check in
    trace w1
    = trace w
        ++ [ EvWriteDomain (os_path_join d "domain.pddl/");
             EvWriteProblem (os_path_join d "problem.pddl/");
             ev; EvIsFile planf found ]
        ++ (if found then [EvPlanFromFile planf] else [])
    /\ exec_observed ev = Some (tmo, rv)
    /\ (if found
        then exists p f, _plan_from_file env pb planf f_check = (Ok p, f)
                         /\ pl = Some p
        else pl = None)
    /\ b = if (tmo && ne_zero rv)%bool
           then Returned {| status := TIMEOUT; plan := pl;
                            log_messages := logs_of out err;
                            engine_name := solver_name self |}
           else FellThrough pl rv (logs_of out err).
Proof.
  unfold solve_ma_block. intros H.
  apply bind_inv in H as ([] & w2 & H2 & H).
  apply bind_inv in H as ([] & w3 & H3 & H).
  apply bind_inv in H as ([] & w4 & H4 & H).
  apply bind_inv in H as ([] & w5 & H5 & H).
  apply bind_inv in H as ([[tmo [out err]] rv] & w6 & H6 & H).
  apply bind_inv in H as (pl & w7 & H7 & H).
  apply launch_inv in H6 as (ev & Htr6 & Hev).
  apply read_plan_inv in H7 as (Htr7 & Hpl).
  exists ev, tmo, out, err, rv, pl, (fs w6). simpl.
  assert (Htr5 : trace w5
                 = trace w ++ [EvWriteDomain (os_path_join d "domain.pddl/");
                               EvWriteProblem (os_path_join d "problem.pddl/")]).
  { unfold emit, call in H2, H3, H4, H5.
    injection H2 as <-.
    destruct (write_ma_domain env pb _ (fs _)) as [r f]. injection H3 as -> <-.
    injection H4 as <-.
    destruct (write_ma_problem env pb _ (fs _)) as [r f']. injection H5 as -> <-.
    simpl. by rewrite <- app_assoc. }
  assert (Hw : w1 = w7 /\ b = if (tmo && ne_zero rv)%bool
           then Returned {| status := TIMEOUT; plan := pl;
                            log_messages := logs_of out err;
                            engine_name := solver_name self |}
           else FellThrough pl rv (logs_of out err)).
  { destruct (tmo && ne_zero rv)%bool; injection H as <- <-; done. }
  destruct Hw as [-> Hb].
  split.
  { rewrite Htr7, Htr6, Htr5. rewrite <- !app_assoc. reflexivity. }
  split; [exact Hev|]. split; [|exact Hb].
  destruct (isfile _ (fs w6)); [|tauto].
  destruct Hpl as (p & Hp & ->). eauto.
Qed.

Lemma solve_ma_inv self pb timeout os w r w1 :
  solve_ma env self (VMultiAgentProblem pb) timeout os w = (Ok r, w1) ->
  exists ev tmo out err rv f_check,
    let d := mkdtemp env (fs w) in
    let planf := os_path_join d "plan.txt" in
    let found := isfile planf f_check in
    trace w1 = trace w ++ run_trace d ev found
    /\ exec_observed ev = Some (tmo, rv)
    /\ (if found
        then exists p f, _plan_from_file env pb planf f_check = (Ok p, f)
                         /\ plan r = Some p
        else plan r = None)
    /\ status r = classification tmo rv found
    /\ log_messages r = logs_of out err
    /\ engine_name r = "FMAP".
Proof.
  unfold solve_ma. intros H.
  apply bind_inv in H as (b & w2 & Hb & H).
  unfold with_TemporaryDirectory in Hb.
  destruct (solve_ma_block _ _ _ _ _ _ _) as [ob w3] eqn:Hblock.
  injection Hb as -> <-.
  apply solve_ma_block_inv in Hblock
    as (ev & tmo & out & err & rv & pl & f_check & Htr & Hev & Hpl & Hb).
  exists ev, tmo, out, err, rv, f_check. simpl in *.
  split.
  { assert (trace w1 = trace w3 ++ [EvCleanup (mkdtemp env (fs w))]) as ->.
    { destruct (tmo && ne_zero rv)%bool; subst b; injection H as <- <-; done. }
    rewrite Htr. unfold run_trace. simpl. rewrite <- !app_assoc. reflexivity. }
  split; [exact Hev|].
  assert (Hr : plan r = pl /\ log_messages r = logs_of out err
               /\ engine_name r = "FMAP"
               /\ status r = if (tmo && ne_zero rv)%bool then TIMEOUT
                             else _result_status self pb pl rv (logs_of out err)).
  { destruct (tmo && ne_zero rv)%bool; subst b; injection H as <- <-; done. }
  destruct Hr as (Hplan & Hlogs & Hname & Hstatus).
  rewrite Hplan. split; [exact Hpl|]. split; [|done].
  rewrite Hstatus. unfold classification, _result_status.
  destruct (tmo && ne_zero rv)%bool; [done|].
  destruct (ne_zero rv); [done|].
  destruct (isfile _ f_check).
  - by destruct Hpl as (p & f & _ & ->).
  - by rewrite Hpl.
Qed.

Lemma read_plan_absent pb planf w :
  isfile planf (fs w) = false ->
  read_plan env pb planf w
  = (Ok None, {| fs := fs w; trace := trace w ++ [EvIsFile planf false] |}).
Proof. unfold read_plan, bind, emit, ret. simpl. by intros ->. Qed.

Lemma read_plan_present pb planf w p f :
  isfile planf (fs w) = true ->
  _plan_from_file env pb planf (fs w) = (Ok p, f) ->
  read_plan env pb planf w
  = (Ok (Some p),
     {| fs := f;
        trace := trace w ++ [EvIsFile planf true; EvPlanFromFile planf] |}).
Proof.
  unfold read_plan, bind, emit, call, ret. simpl. intros -> Hp. simpl.
  rewrite Hp. by rewrite <- app_assoc.
Qed.

Lemma solve_ma_returns self pb timeout os w f1 f2 tmo out err rv w3 pl w4 :
  let d := mkdtemp env (fs w) in
  let dom := os_path_join d "domain.pddl/" in
  let prob := os_path_join d "problem.pddl/" in
  let planf := os_path_join d "plan.txt" in
  let cmd := _get_cmd_ma (resource_filename env "up_fmap" "FMAP/FMAP.jar")
               self pb dom prob planf in
  write_ma_domain env pb dom (mkdir d (fs w)) = (Ok tt, f1) ->
  write_ma_problem env pb prob f1 = (Ok tt, f2) ->
  launch env cmd timeout os
    {| fs := f2;
       trace := trace w ++ [EvMkdtemp d; EvWriteDomain dom;
                            EvWriteProblem prob] |}
  = (Ok (tmo, (out, err), rv), w3) ->
  read_plan env pb planf w3 = (Ok pl, w4) ->
  solve_ma env self (VMultiAgentProblem pb) timeout os w
  = (Ok {| status := if (tmo && ne_zero rv)%bool then TIMEOUT
                     else _result_status self pb pl rv (logs_of out err);
           plan := pl; log_messages := logs_of out err;
           engine_name := solver_name self |},
     {| fs := rmtree d (fs w4); trace := trace w4 ++ [EvCleanup d] |}).
Proof.
  intros d dom prob planf cmd. subst d dom prob planf cmd.
  intros Hdom Hprob Hrun Hplan.
  unfold solve_ma, with_TemporaryDirectory, solve_ma_block.
  unfold bind at 1.
  unfold bind at 1, emit at 1. cbn [fs trace].
  unfold bind at 1, call at 1. cbn [fs trace]. rewrite Hdom.
  unfold bind at 1, emit at 1. cbn [fs trace].
  unfold bind at 1, call at 1. cbn [fs trace]. rewrite Hprob.
  rewrite <- !app_assoc. cbn [app].
  unfold bind at 1. rewrite Hrun.
  unfold bind at 1. rewrite Hplan.
  destruct (tmo && ne_zero rv)%bool; reflexivity.
Qed.
Lemma run_trace_exec d ev found x :
  exec_observed ev = Some x ->
  omap exec_observed (run_trace d ev found) = [x].
Proof.
  intros Hev. unfold run_trace. destruct found; simpl; by rewrite Hev.
Qed.

Lemma run_trace_isfile d ev found x :
  exec_observed ev = Some x ->
  omap isfile_observed (run_trace d ev found) = [found].
Proof.
  intros Hev. unfold run_trace.
  destruct ev as [| | |c [o|e]|rn c [o|e]| | |]; try discriminate;
    destruct found; reflexivity.
Qed.


(** C4. The result of [solve_ma] carries a plan only if
    [os.path.isfile(plan_filename)] answered true at the check made after
    the child process, and the plan is then the one the parser returned
    for that file; if the file was not there the plan is absent,
    whatever the status. *)
Theorem solve_ma_plan_only_from_file :
  forall self pb timeout os w r w1,
    solve_ma env self (VMultiAgentProblem pb) timeout os w = (Ok r, w1) ->
    let planf := os_path_join (mkdtemp env (fs w)) "plan.txt" in
    exists new f_check,
      trace w1 = trace w ++ new
      /\ In (EvIsFile planf (isfile planf f_check)) new
      /\ omap isfile_observed new = [isfile planf f_check]
      /\ (plan r <> None ->
          isfile planf f_check = true
          /\ exists p f, _plan_from_file env pb planf f_check = (Ok p, f)
                         /\ plan r = Some p)
      /\ (isfile planf f_check = false -> plan r = None).
Proof.
  intros self pb timeout os w r w1 H planf.
  apply solve_ma_inv in H
    as (ev & tmo & out & err & rv & f & Htr & Hev & Hpl & _).
  simpl in *. fold planf in Htr, Hpl.
  exists (run_trace (mkdtemp env (fs w)) ev (isfile planf f)), f.
  split; [exact Htr|].
  split.
  { unfold run_trace. fold planf. simpl. auto 6. }
  split; [by eapply run_trace_isfile|].
  destruct (isfile planf f).
  - split; [auto | discriminate].
  - split; [congruence | auto].
Qed.

(** C5. When the child process timed out with a nonzero exit code,
    [solve_ma] still looks for the plan file: if it is absent the
    result is TIMEOUT without a plan, if it is there and parses to [p] the
    result is TIMEOUT with plan [p]. *)
Theorem solve_ma_timeout_keeps_plan :
  forall self pb timeout os w f1 f2 out err rv w3,
    let d := mkdtemp env (fs w) in
    let dom := os_path_join d "domain.pddl/" in
    let prob := os_path_join d "problem.pddl/" in
    let planf := os_path_join d "plan.txt" in
    let cmd := _get_cmd_ma (resource_filename env "up_fmap" "FMAP/FMAP.jar")
                 self pb dom prob planf in
    let timed_out (pl : option Plan) :=
      {| status := TIMEOUT; plan := pl; log_messages := logs_of out err;
         engine_name := "FMAP" |} in
    write_ma_domain env pb dom (mkdir d (fs w)) = (Ok tt, f1) ->
    write_ma_problem env pb prob f1 = (Ok tt, f2) ->
    launch env cmd timeout os
      {| fs := f2;
         trace := trace w ++ [EvMkdtemp d; EvWriteDomain dom;
                              EvWriteProblem prob] |}
    = (Ok (true, (out, err), rv), w3) ->
    ne_zero rv = true ->
    (isfile planf (fs w3) = false ->
     exists w1,
       solve_ma env self (VMultiAgentProblem pb) timeout os w
       = (Ok (timed_out None), w1))
    /\ (forall p f4,
           isfile planf (fs w3) = true ->
           _plan_from_file env pb planf (fs w3) = (Ok p, f4) ->
           exists w1,
             solve_ma env self (VMultiAgentProblem pb) timeout os w
             = (Ok (timed_out (Some p)), w1)).
Proof.
  intros self pb timeout os w f1 f2 out err rv w3 d dom prob planf cmd
    timed_out Hdom Hprob Hrun Hrv.
  split.
  - intros Hno. eexists.
    erewrite solve_ma_returns;
      [| exact Hdom | exact Hprob | exact Hrun
       | by apply read_plan_absent].
    by rewrite Hrv.
  - intros p f4 Hyes Hp. eexists.
    erewrite solve_ma_returns;
      [| exact Hdom | exact Hprob | exact Hrun
       | by eapply read_plan_present].
    by rewrite Hrv.
Qed.

Lemma rmtree_gone d f p :
  under d p = true -> (p ∉ files (rmtree d f)) /\ (p ∉ dirs (rmtree d f)).
Proof.
  intros Hu. unfold rmtree. simpl.
  split; intros [H _]%elem_of_filter; congruence.
Qed.

Lemma under_refl d : under d d = true.
Proof. unfold under. by rewrite String.eqb_refl. Qed.

(** C6. Whatever way a call of [solve_ma] on a multi-agent problem ends,
    by a result of any status or by an exception, the
    temporary directory of the call and everything below it are gone
    afterwards and its removal is the last thing done; a call that fails
    the assertion creates no directory at all. *)
Theorem solve_ma_removes_tempdir :
  forall self problem timeout os w,
    let w1 := snd (solve_ma env self problem timeout os w) in
    match problem with
    | VMultiAgentProblem _ =>
        let d := mkdtemp env (fs w) in
        (d ∉ dirs (fs w1))
        /\ (forall p, under d p = true ->
                      (p ∉ files (fs w1)) /\ (p ∉ dirs (fs w1)))
        /\ last (trace w1) = Some (EvCleanup d)
    | VOther _ => w1 = w
    end.
Proof.
  intros self [pb|repr] timeout os w; [|reflexivity].
  unfold solve_ma, bind, with_TemporaryDirectory, ret. simpl.
  destruct (solve_ma_block _ _ _ _ _ _ _) as [[b|e] w3]; simpl.
  - destruct b; simpl;
      (split; [apply rmtree_gone, under_refl|];
       split; [intros p Hp; by apply rmtree_gone|];
       by rewrite last_snoc).
  - split; [apply rmtree_gone, under_refl|].
    split; [intros p Hp; by apply rmtree_gone|].
    by rewrite last_snoc.
Qed.

(** C7. Called with anything but a multi-agent problem, [solve_ma] raises
    [AssertionError] and returns no result; nothing has been written and
    no process has been started: the file system and the trace of
    external calls are as before the call. *)
Theorem solve_ma_asserts_problem_kind :
  forall self repr timeout os w,
    solve_ma env self (VOther repr) timeout os w = (Raise AssertionError, w).
Proof. reflexivity. Qed.

(** C8. Two calls of [solve_ma] in sequence on the same solver, problem and
    arguments, the second starting where the first ended, return
    results of the same status whenever the child process and the
    plan-file check behaved alike in both. The solver is passed to both
    calls as the same value: no method assigns to a field of [self]. *)
Theorem solve_ma_repeatable :
  forall self pb timeout os w0 r1 w1 r2 w2 new1 new2,
    solve_ma env self (VMultiAgentProblem pb) timeout os w0 = (Ok r1, w1) ->
    solve_ma env self (VMultiAgentProblem pb) timeout os w1 = (Ok r2, w2) ->
    trace w1 = trace w0 ++ new1 ->
    trace w2 = trace w1 ++ new2 ->
    omap exec_observed new1 = omap exec_observed new2 ->
    omap isfile_observed new1 = omap isfile_observed new2 ->
    status r1 = status r2.
Proof.
  intros self pb timeout os w0 r1 w1 r2 w2 new1 new2 H1 H2 Ht1 Ht2 Hx Hf.
  apply solve_ma_inv in H1
    as (ev1 & tmo1 & out1 & err1 & rv1 & f1 & Htr1 & Hev1 & _ & Hst1 & _).
  apply solve_ma_inv in H2
    as (ev2 & tmo2 & out2 & err2 & rv2 & f2 & Htr2 & Hev2 & _ & Hst2 & _).
  simpl in *.
  rewrite Ht1 in Htr1. apply app_inv_head in Htr1. subst new1.
  rewrite Ht2 in Htr2. apply app_inv_head in Htr2. subst new2.
  rewrite (run_trace_exec _ _ _ _ Hev1), (run_trace_exec _ _ _ _ Hev2) in Hx.
  rewrite (run_trace_isfile _ _ _ _ Hev1), (run_trace_isfile _ _ _ _ Hev2)
    in Hf.
  injection Hx as -> ->. injection Hf as Hf.
  rewrite Hst1, Hst2. by rewrite Hf.
Qed.

(** C9. Without an output stream, when [communicate] raises
    [TimeoutExpired] the return code read afterwards is [None] and the
    buffers keep their initial [[]]; as [None != 0] the call returns a
    result of status TIMEOUT whose INFO and ERROR messages are both the
    empty string. *)
Theorem solve_ma_buffered_timeout :
  forall self pb timeout w f1 f2 f3,
    let d := mkdtemp env (fs w) in
    let dom := os_path_join d "domain.pddl/" in
    let prob := os_path_join d "problem.pddl/" in
    let planf := os_path_join d "plan.txt" in
    let cmd := _get_cmd_ma (resource_filename env "up_fmap" "FMAP/FMAP.jar")
                 self pb dom prob planf in
    let w2 := {| fs := f2;
                 trace := trace w ++ [EvMkdtemp d; EvWriteDomain dom;
                                      EvWriteProblem prob] |} in
    write_ma_domain env pb dom (mkdir d (fs w)) = (Ok tt, f1) ->
    write_ma_problem env pb prob f1 = (Ok tt, f2) ->
    communicate env cmd timeout f2 = (Ok TimeoutExpired, f3) ->
    (isfile planf f3 = true ->
     exists p f4, _plan_from_file env pb planf f3 = (Ok p, f4)) ->
    run_buffered env cmd timeout w2
    = (Ok (true, ([], []), None),
       {| fs := f3;
          trace := trace w2 ++ [EvPopen cmd (Ok TimeoutExpired)] |})
    /\ exists pl w1,
         solve_ma env self (VMultiAgentProblem pb) timeout None w
         = (Ok {| status := TIMEOUT; plan := pl;
                  log_messages := [ {| level := INFO; message := "" |};
                                    {| level := ERROR; message := "" |} ];
                  engine_name := "FMAP" |}, w1).
Proof.
  intros self pb timeout w f1 f2 f3 d dom prob planf cmd w2
    Hdom Hprob Hcomm Hparse.
  assert (Hrun : run_buffered env cmd timeout w2
                 = (Ok (true, ([], []), None),
                    {| fs := f3;
                       trace := trace w2 ++ [EvPopen cmd (Ok TimeoutExpired)]
                    |})).
  { unfold run_buffered, bind, call_logged, ret. subst w2. simpl.
    by rewrite Hcomm. }
  split; [exact Hrun|].
  destruct (isfile planf f3) eqn:Hfile.
  - destruct (Hparse eq_refl) as (p & f4 & Hp).
    eexists (Some p), _.
    erewrite solve_ma_returns;
      [| exact Hdom | exact Hprob | exact Hrun
       | by eapply read_plan_present].
    reflexivity.
  - eexists None, _.
    erewrite solve_ma_returns;
      [| exact Hdom | exact Hprob | exact Hrun
       | by apply read_plan_absent].
    reflexivity.
Qed.

End AdapterFacts.

(** ** More on the command line *)

(** X2. The command has three tokens for the invocation, three per agent and
    two for each parameter that is set. *)
Theorem get_cmd_ma_length :
  forall jar self problem d p pl,
    length (_get_cmd_ma jar self problem d p pl)
    = 3 + 3 * length (agents problem)
      + match search_algorithm self with Some _ => 2 | None => 0 end
      + match heuristic self with Some _ => 2 | None => 0 end.
Proof.
  intros. rewrite get_cmd_ma_eq, !length_app, triples_length.
  destruct (search_algorithm self), (heuristic self); simpl; lia.
Qed.

Lemma length_append (s t : string) :
  String.length (s +:+ t) = String.length s + String.length t.
Proof.
  induction s as [|c s IH]; [reflexivity|].
  change (String c s +:+ t) with (String c (s +:+ t)). simpl. by rewrite IH.
Qed.

Lemma append_inj_l (s1 s2 t : string) : s1 +:+ t = s2 +:+ t -> s1 = s2.
Proof.
  intros H.
  assert (Hlen : String.length s1 = String.length s2).
  { apply (f_equal String.length) in H.
    rewrite !length_append in H. lia. }
  revert s2 H Hlen. induction s1 as [|c s1 IH]; intros [|c2 s2] H Hlen;
    try discriminate; [reflexivity|].
  change (String c (s1 +:+ t) = String c2 (s2 +:+ t)) in H.
  injection H as -> H. f_equal. apply IH; [exact H|].
  simpl in Hlen. lia.
Qed.

Lemma triples_inj d p (ags1 ags2 : list Agent) :
  concat (map (agent_triple d p) ags1) = concat (map (agent_triple d p) ags2)
  -> ags1 = ags2.
Proof.
  revert ags2. induction ags1 as [|[n1] ags1 IH]; intros [|[n2] ags2] H;
    try discriminate; [reflexivity|].
  simpl in H. injection H as Hn _ _ H.
  apply append_inj_l in Hn. subst. f_equal. by apply IH.
Qed.

(** X3. The agents can be read back from the command: with the same jar,
    solver and file names, two problems that give the same command have
    the same agents in the same order. *)
Theorem get_cmd_ma_agents_inj :
  forall jar self problem1 problem2 d p pl1 pl2,
    _get_cmd_ma jar self problem1 d p pl1
    = _get_cmd_ma jar self problem2 d p pl2 ->
    agents problem1 = agents problem2.
Proof.
  intros jar self problem1 problem2 d p pl1 pl2 H.
  rewrite !get_cmd_ma_eq in H.
  apply app_inv_head in H. apply app_inv_tail in H.
  by apply triples_inj in H.
Qed.

(** X4. With an absolute temporary directory, the domain and problem paths
    put on the command line start with [ma_pddl_] and so do not lie in
    that directory: its removal does not reach them. *)
Theorem agent_paths_outside_tempdir :
  forall tempdir ag,
    startswith_sep tempdir = true ->
    under tempdir
      (directory +:+ os_path_join tempdir "domain.pddl/" +:+ name ag
         +:+ "_domain.pddl") = false
    /\ under tempdir
         (directory +:+ os_path_join tempdir "problem.pddl/" +:+ name ag
            +:+ "_problem.pddl") = false.
Proof.
  intros tempdir ag Habs.
  destruct tempdir as [|c t]; [discriminate|].
  simpl in Habs. apply Ascii.eqb_eq in Habs. subst c.
  split; reflexivity.
Qed.

(** ** More on the adapter *)

Section AdapterMore.
Context {float Plan Stream : Type}.
Variable env : @Env float Plan Stream.

Lemma bind_raise {A B} (m : M A) (k : A -> M B) w e w0 :
  m w = (Raise e, w0) -> bind m k w = (Raise e, w0).
Proof. unfold bind. by intros ->. Qed.

(** What a launch that raises nothing did, by path. *)
Lemma launch_inv_event cmd timeout os w tmo out err rv w1 :
  launch env cmd timeout os w = (Ok (tmo, (out, err), rv), w1) ->
  match os with
  | None =>
      exists c,
        trace w1 = trace w ++ [EvPopen cmd (Ok c)]
        /\ match c with
           | Completed o e rc =>
               decode env o = Some (String.concat "" out)
               /\ decode env e = Some (String.concat "" err)
               /\ tmo = false /\ rv = Some rc
           | TimeoutExpired =>
               tmo = true /\ out = [] /\ err = [] /\ rv = None
           end
  | Some _ =>
      trace w1
      = trace w ++ [EvRunCommand (select_runner env) cmd
                      (Ok (tmo, (out, err), rv))]
  end.
Proof.
  unfold launch, run_buffered, run_streamed, call_logged, bind, ret, raise.
  destruct os as [stream|].
  - destruct (select_runner env) as [loop|].
    + destruct (run_command_asyncio env loop cmd stream timeout (fs w))
        as [[x|x] f]; intros H; [|discriminate].
      by injection H as -> <-.
    + destruct (run_command_posix_select env cmd stream timeout (fs w))
        as [[x|x] f]; intros H; [|discriminate].
      by injection H as -> <-.
  - destruct (communicate env cmd timeout (fs w)) as [[c|x] f];
      [|discriminate].
    destruct c as [o e rc|].
    + destruct (decode env o) as [so|] eqn:Ho,
        (decode env e) as [se|] eqn:He;
        intros H; try discriminate.
      injection H as <- <- <- <- <-. exists (Completed o e rc).
      rewrite Ho, He. repeat split; reflexivity.
    + intros H. injection H as <- <- <- <- <-. exists TimeoutExpired.
      repeat split; reflexivity.
Qed.

(** Every run that returns went through the four steps
    [solve_ma_returns] asks for. *)
Lemma solve_ma_inv_steps self pb timeout os w r w1 :
  solve_ma env self (VMultiAgentProblem pb) timeout os w = (Ok r, w1) ->
  let d := mkdtemp env (fs w) in
  let dom := os_path_join d "domain.pddl/" in
  let prob := os_path_join d "problem.pddl/" in
  let planf := os_path_join d "plan.txt" in
  let cmd := _get_cmd_ma (resource_filename env "up_fmap" "FMAP/FMAP.jar")
               self pb dom prob planf in
  exists f1 f2 tmo out err rv w3 pl w4,
    write_ma_domain env pb dom (mkdir d (fs w)) = (Ok tt, f1)
    /\ write_ma_problem env pb prob f1 = (Ok tt, f2)
    /\ launch env cmd timeout os
         {| fs := f2;
            trace := trace w ++ [EvMkdtemp d; EvWriteDomain dom;
                                 EvWriteProblem prob] |}
       = (Ok (tmo, (out, err), rv), w3)
    /\ read_plan env pb planf w3 = (Ok pl, w4)
    /\ r = {| status := if (tmo && ne_zero rv)%bool then TIMEOUT
                        else _result_status self pb pl rv (logs_of out err);
              plan := pl; log_messages := logs_of out err;
              engine_name := solver_name self |}
    /\ w1 = {| fs := rmtree d (fs w4); trace := trace w4 ++ [EvCleanup d] |}.
Proof.
  intros H d dom prob planf cmd. subst d dom prob planf cmd.
  unfold solve_ma in H.
  apply bind_inv in H as (b & w2 & Hb & H).
  unfold with_TemporaryDirectory in Hb.
  destruct (solve_ma_block _ _ _ _ _ _ _) as [ob w5] eqn:Hblock.
  injection Hb as -> <-.
  unfold solve_ma_block in Hblock.
  apply bind_inv in Hblock as ([] & wa & Ha & Hblock).
  apply bind_inv in Hblock as ([] & wb & Hb & Hblock).
  apply bind_inv in Hblock as ([] & wc & Hc & Hblock).
  apply bind_inv in Hblock as ([] & wd & Hd & Hblock).
  apply bind_inv in Hblock as ([[tmo [out err]] rv] & w3 & Hrun & Hblock).
  apply bind_inv in Hblock as (pl & w4 & Hplan & Hblock).
  unfold emit in Ha, Hc. unfold call in Hb, Hd.
  injection Ha as <-. cbn [fs trace] in Hb.
  destruct (write_ma_domain env pb _ _) as [r1 f1] eqn:Hdom.
  injection Hb as -> <-.
  injection Hc as <-. cbn [fs trace] in Hd.
  destruct (write_ma_problem env pb _ _) as [r2 f2] eqn:Hprob.
  injection Hd as -> <-. cbn [fs trace] in Hrun.
  rewrite <- !app_assoc in Hrun. cbn [app] in Hrun.
  exists f1, f2, tmo, out, err, rv, w3, pl, w4.
  split; [first [exact Hdom | reflexivity]|].
  split; [first [exact Hprob | reflexivity]|].
  split; [exact Hrun|]. split; [exact Hplan|].
  destruct (tmo && ne_zero rv)%bool;
    injection Hblock as <- <-; injection H as <- <-; auto.
Qed.

(** X5. A result of status SOLVED has a plan, one of status UNSOLVABLE_PROVEN
    has none, and no other status than these two, INTERNAL_ERROR and
    TIMEOUT is ever returned. *)
Theorem solve_ma_status_plan_consistent :
  forall self pb timeout os w r w1,
    solve_ma env self (VMultiAgentProblem pb) timeout os w = (Ok r, w1) ->
    (status r = SOLVED_SATISFICING /\ plan r <> None)
    \/ (status r = UNSOLVABLE_PROVEN /\ plan r = None)
    \/ status r = INTERNAL_ERROR
    \/ status r = TIMEOUT.
Proof.
  intros self pb timeout os w r w1 H.
  apply solve_ma_inv_steps in H
    as (f1 & f2 & tmo & out & err & rv & w3 & pl & w4 & _ & _ & _ & _ & -> & _).
  simpl. destruct (tmo && ne_zero rv)%bool; [auto|].
  unfold _result_status. destruct (ne_zero rv); [auto|].
  destruct pl; [left | right; left]; done.
Qed.

(** X6. The external calls of a run that returns, in order: the directory
    is made, the domain files are written, then the problem files, one
    child process is run on the command of [_get_cmd_ma] (by [Popen]
    without an output stream, else by the runner selected for the host),
    the plan file is looked for, parsed only if found, and the directory
    is removed. *)
Theorem solve_ma_call_order :
  forall self pb timeout os w r w1,
    solve_ma env self (VMultiAgentProblem pb) timeout os w = (Ok r, w1) ->
    let d := mkdtemp env (fs w) in
    let cmd :=
      _get_cmd_ma (resource_filename env "up_fmap" "FMAP/FMAP.jar") self pb
        (os_path_join d "domain.pddl/") (os_path_join d "problem.pddl/")
        (os_path_join d "plan.txt") in
    exists ev found,
      trace w1 = trace w ++ run_trace d ev found
      /\ match os with
         | None => exists c, ev = EvPopen cmd (Ok c)
         | Some _ =>
             exists res, ev = EvRunCommand (select_runner env) cmd (Ok res)
         end.
Proof.
  intros self pb timeout os w r w1 H d cmd.
  apply solve_ma_inv_steps in H
    as (f1 & f2 & tmo & out & err & rv & w3 & pl & w4
        & _ & _ & Hrun & Hplan & _ & ->).
  fold d in Hrun, Hplan. fold cmd in Hrun.
  apply read_plan_inv in Hplan as [Htr4 _].
  apply launch_inv_event in Hrun. cbn [trace fs] in *.
  destruct os as [stream|].
  - eexists _, (isfile (os_path_join d "plan.txt") (fs w3)).
    split; [|eexists; reflexivity].
    rewrite Htr4, Hrun. unfold run_trace.
    rewrite <- !app_assoc. reflexivity.
  - destruct Hrun as (c & Htr3 & _).
    eexists _, (isfile (os_path_join d "plan.txt") (fs w3)).
    split; [|eexists; reflexivity].
    rewrite Htr4, Htr3. unfold run_trace.
    rewrite <- !app_assoc. reflexivity.
Qed.

(** X7. With an output stream, the INFO and ERROR messages of the result are
    the joined stdout and stderr lines the runner returned, the engine
    name is FMAP, and the status is TIMEOUT exactly when the runner
    reported a timeout together with an exit code other than 0. *)
Theorem solve_ma_streamed_result :
  forall self pb timeout stream w r w1,
    solve_ma env self (VMultiAgentProblem pb) timeout (Some stream) w
    = (Ok r, w1) ->
    let d := mkdtemp env (fs w) in
    let cmd :=
      _get_cmd_ma (resource_filename env "up_fmap" "FMAP/FMAP.jar") self pb
        (os_path_join d "domain.pddl/") (os_path_join d "problem.pddl/")
        (os_path_join d "plan.txt") in
    exists tmo out err rv,
      In (EvRunCommand (select_runner env) cmd (Ok (tmo, (out, err), rv)))
         (trace w1)
      /\ log_messages r
         = [ {| level := INFO; message := String.concat "" out |};
             {| level := ERROR; message := String.concat "" err |} ]
      /\ engine_name r = "FMAP"
      /\ (status r = TIMEOUT <-> tmo = true /\ ne_zero rv = true).
Proof.
  intros self pb timeout stream w r w1 H d cmd.
  apply solve_ma_inv_steps in H
    as (f1 & f2 & tmo & out & err & rv & w3 & pl & w4
        & _ & _ & Hrun & Hplan & -> & ->).
  fold d in Hrun, Hplan. fold cmd in Hrun.
  apply read_plan_inv in Hplan as [Htr4 _].
  apply launch_inv_event in Hrun. cbn [trace fs] in *.
  exists tmo, out, err, rv. split.
  { rewrite Htr4, Hrun. rewrite !in_app_iff. simpl. auto 8. }
  split; [reflexivity|]. split; [reflexivity|].
  unfold _result_status.
  destruct tmo, (ne_zero rv), pl; simpl; split; intros Hs;
    try discriminate; try (destruct Hs; discriminate); auto.
Qed.

(** X8. Without an output stream and with a child that was waited for, the
    INFO and ERROR messages are the decoded stdout and stderr, the
    status is never TIMEOUT, and a nonzero exit code gives
    INTERNAL_ERROR; the status is TIMEOUT when [communicate] raised
    [TimeoutExpired]. *)
Theorem solve_ma_buffered_result :
  forall self pb timeout w r w1,
    solve_ma env self (VMultiAgentProblem pb) timeout None w = (Ok r, w1) ->
    let d := mkdtemp env (fs w) in
    let cmd :=
      _get_cmd_ma (resource_filename env "up_fmap" "FMAP/FMAP.jar") self pb
        (os_path_join d "domain.pddl/") (os_path_join d "problem.pddl/")
        (os_path_join d "plan.txt") in
    exists c,
      In (EvPopen cmd (Ok c)) (trace w1)
      /\ match c with
         | Completed o e rc =>
             exists so se,
               decode env o = Some so /\ decode env e = Some se
               /\ log_messages r
                  = [ {| level := INFO; message := so |};
                      {| level := ERROR; message := se |} ]
               /\ status r <> TIMEOUT
               /\ (rc <> 0%Z -> status r = INTERNAL_ERROR)
         | TimeoutExpired => status r = TIMEOUT
         end.
Proof.
  intros self pb timeout w r w1 H d cmd.
  apply solve_ma_inv_steps in H
    as (f1 & f2 & tmo & out & err & rv & w3 & pl & w4
        & _ & _ & Hrun & Hplan & -> & ->).
  fold d in Hrun, Hplan. fold cmd in Hrun.
  apply read_plan_inv in Hplan as [Htr4 _].
  apply launch_inv_event in Hrun as (c & Htr3 & Hc). cbn [trace fs] in *.
  exists c. split.
  { rewrite Htr4, Htr3. rewrite !in_app_iff. simpl. auto 8. }
  destruct c as [o e rc|].
  - destruct Hc as (Ho & He & -> & ->).
    exists (String.concat "" out), (String.concat "" err).
    split; [exact Ho|]. split; [exact He|]. split; [reflexivity|].
    simpl. unfold _result_status. split.
    + destruct (ne_zero (Some rc)), pl; discriminate.
    + intros Hrc. destruct rc; [done | reflexivity | reflexivity].
  - destruct Hc as (-> & _ & _ & ->). reflexivity.
Qed.

(** X9. A child that ends with a nonzero exit code without timeout gives
    INTERNAL_ERROR whether or not a plan file is there; a plan file that
    is there is still parsed and its plan returned with the result. *)
Theorem solve_ma_nonzero_exit :
  forall self pb timeout os w f1 f2 out err rv w3,
    let d := mkdtemp env (fs w) in
    let dom := os_path_join d "domain.pddl/" in
    let prob := os_path_join d "problem.pddl/" in
    let planf := os_path_join d "plan.txt" in
    let cmd := _get_cmd_ma (resource_filename env "up_fmap" "FMAP/FMAP.jar")
                 self pb dom prob planf in
    let failed (pl : option Plan) :=
      {| status := INTERNAL_ERROR; plan := pl;
         log_messages := logs_of out err; engine_name := "FMAP" |} in
    write_ma_domain env pb dom (mkdir d (fs w)) = (Ok tt, f1) ->
    write_ma_problem env pb prob f1 = (Ok tt, f2) ->
    launch env cmd timeout os
      {| fs := f2;
         trace := trace w ++ [EvMkdtemp d; EvWriteDomain dom;
                              EvWriteProblem prob] |}
    = (Ok (false, (out, err), rv), w3) ->
    ne_zero rv = true ->
    (isfile planf (fs w3) = false ->
     exists w1,
       solve_ma env self (VMultiAgentProblem pb) timeout os w
       = (Ok (failed None), w1))
    /\ (forall p f4,
           isfile planf (fs w3) = true ->
           _plan_from_file env pb planf (fs w3) = (Ok p, f4) ->
           exists w1,
             solve_ma env self (VMultiAgentProblem pb) timeout os w
             = (Ok (failed (Some p)), w1)).
Proof.
  intros self pb timeout os w f1 f2 out err rv w3 d dom prob planf cmd
    failed Hdom Hprob Hrun Hrv.
  split.
  - intros Hno. eexists.
    erewrite solve_ma_returns;
      [| exact Hdom | exact Hprob | exact Hrun
       | by apply read_plan_absent].
    unfold _result_status. by rewrite Hrv.
  - intros p f4 Hyes Hp. eexists.
    erewrite solve_ma_returns;
      [| exact Hdom | exact Hprob | exact Hrun
       | by eapply read_plan_present].
    unfold _result_status. by rewrite Hrv.
Qed.

(** X10. An exception raised by the writer propagates out of [solve_ma]
    unchanged: no child process is started, the plan file is not looked
    for, and the directory is removed. *)
Theorem solve_ma_writer_fault :
  forall self pb timeout os w e,
    let d := mkdtemp env (fs w) in
    let dom := os_path_join d "domain.pddl/" in
    let prob := os_path_join d "problem.pddl/" in
    (forall f1,
        write_ma_domain env pb dom (mkdir d (fs w)) = (Raise e, f1) ->
        solve_ma env self (VMultiAgentProblem pb) timeout os w
        = (Raise e,
           {| fs := rmtree d f1;
              trace := trace w ++ [EvMkdtemp d; EvWriteDomain dom;
                                   EvCleanup d] |}))
    /\ (forall f1 f2,
           write_ma_domain env pb dom (mkdir d (fs w)) = (Ok tt, f1) ->
           write_ma_problem env pb prob f1 = (Raise e, f2) ->
           solve_ma env self (VMultiAgentProblem pb) timeout os w
           = (Raise e,
              {| fs := rmtree d f2;
                 trace := trace w ++ [EvMkdtemp d; EvWriteDomain dom;
                                      EvWriteProblem prob; EvCleanup d] |})).
Proof.
  intros self pb timeout os w e d dom prob. subst d dom prob. split.
  - intros f1 Hdom.
    unfold solve_ma, with_TemporaryDirectory, solve_ma_block.
    unfold bind at 1.
    unfold bind at 1, emit at 1. cbn [fs trace].
    unfold bind at 1, call at 1. cbn [fs trace]. rewrite Hdom.
    cbn [fs trace]. rewrite <- !app_assoc. reflexivity.
  - intros f1 f2 Hdom Hprob.
    unfold solve_ma, with_TemporaryDirectory, solve_ma_block.
    unfold bind at 1.
    unfold bind at 1, emit at 1. cbn [fs trace].
    unfold bind at 1, call at 1. cbn [fs trace]. rewrite Hdom.
    unfold bind at 1, emit at 1. cbn [fs trace].
    unfold bind at 1, call at 1. cbn [fs trace]. rewrite Hprob.
    cbn [fs trace]. rewrite <- !app_assoc. reflexivity.
Qed.

Lemma solve_ma_launch_raises self pb timeout os w f1 f2 e w3 :
  let d := mkdtemp env (fs w) in
  let dom := os_path_join d "domain.pddl/" in
  let prob := os_path_join d "problem.pddl/" in
  let planf := os_path_join d "plan.txt" in
  let cmd := _get_cmd_ma (resource_filename env "up_fmap" "FMAP/FMAP.jar")
               self pb dom prob planf in
  write_ma_domain env pb dom (mkdir d (fs w)) = (Ok tt, f1) ->
  write_ma_problem env pb prob f1 = (Ok tt, f2) ->
  launch env cmd timeout os
    {| fs := f2;
       trace := trace w ++ [EvMkdtemp d; EvWriteDomain dom;
                            EvWriteProblem prob] |}
  = (Raise e, w3) ->
  solve_ma env self (VMultiAgentProblem pb) timeout os w
  = (Raise e, {| fs := rmtree d (fs w3); trace := trace w3 ++ [EvCleanup d] |}).
Proof.
  intros d dom prob planf cmd. subst d dom prob planf cmd.
  intros Hdom Hprob Hrun.
  unfold solve_ma, with_TemporaryDirectory, solve_ma_block.
  unfold bind at 1.
  unfold bind at 1, emit at 1. cbn [fs trace].
  unfold bind at 1, call at 1. cbn [fs trace]. rewrite Hdom.
  unfold bind at 1, emit at 1. cbn [fs trace].
  unfold bind at 1, call at 1. cbn [fs trace]. rewrite Hprob.
  rewrite <- !app_assoc. cbn [app].
  unfold bind at 1. rewrite Hrun. reflexivity.
Qed.

(** X11. Without an output stream, an exception of [Popen] or
    [communicate] other than the timeout (the executable is missing, say)
    propagates out of [solve_ma] unchanged, and output that cannot be
    decoded makes it raise [UnicodeDecodeError]; in both cases the plan
    file is not looked for and the directory is removed. *)
Theorem solve_ma_buffered_fault :
  forall self pb timeout w f1 f2 f3,
    let d := mkdtemp env (fs w) in
    let dom := os_path_join d "domain.pddl/" in
    let prob := os_path_join d "problem.pddl/" in
    let planf := os_path_join d "plan.txt" in
    let cmd := _get_cmd_ma (resource_filename env "up_fmap" "FMAP/FMAP.jar")
                 self pb dom prob planf in
    let raised (e : Exn) (res : Outcome CommunicateOutcome) :=
      (@Raise (@PlanGenerationResult Plan) e,
       {| fs := rmtree d f3;
          trace := trace w ++ [EvMkdtemp d; EvWriteDomain dom;
                               EvWriteProblem prob; EvPopen cmd res;
                               EvCleanup d] |}) in
    write_ma_domain env pb dom (mkdir d (fs w)) = (Ok tt, f1) ->
    write_ma_problem env pb prob f1 = (Ok tt, f2) ->
    (forall e,
        communicate env cmd timeout f2 = (Raise e, f3) ->
        solve_ma env self (VMultiAgentProblem pb) timeout None w
        = raised e (Raise e))
    /\ (forall o e rc,
           communicate env cmd timeout f2 = (Ok (Completed o e rc), f3) ->
           decode env o = None \/ decode env e = None ->
           solve_ma env self (VMultiAgentProblem pb) timeout None w
           = raised UnicodeDecodeError (Ok (Completed o e rc))).
Proof.
  intros self pb timeout w f1 f2 f3 d dom prob planf cmd raised Hdom Hprob.
  split.
  - intros e Hcomm.
    erewrite solve_ma_launch_raises; [| exact Hdom | exact Hprob |].
    2:{ unfold launch, run_buffered, bind, call_logged. cbn [fs trace].
        fold d dom prob planf. fold cmd. rewrite Hcomm. reflexivity. }
    unfold raised. cbn [fs trace]. rewrite <- !app_assoc. reflexivity.
  - intros o e rc Hcomm Hdec.
    erewrite solve_ma_launch_raises; [| exact Hdom | exact Hprob |].
    2:{ unfold launch, run_buffered, bind, call_logged. cbn [fs trace].
        fold d dom prob planf. fold cmd. rewrite Hcomm.
        destruct Hdec as [Ho | He].
        - rewrite Ho. reflexivity.
        - rewrite He. destruct (decode env o); reflexivity. }
    unfold raised. cbn [fs trace]. rewrite <- !app_assoc. reflexivity.
Qed.

(** X12. A plan file that is there but that the parser rejects makes
    [solve_ma] raise the parser's exception, whatever the child process
    did, a timeout included: no result is returned. *)
Theorem solve_ma_parser_fault :
  forall self pb timeout os w f1 f2 tmo out err rv w3 e f4,
    let d := mkdtemp env (fs w) in
    let dom := os_path_join d "domain.pddl/" in
    let prob := os_path_join d "problem.pddl/" in
    let planf := os_path_join d "plan.txt" in
    let cmd := _get_cmd_ma (resource_filename env "up_fmap" "FMAP/FMAP.jar")
                 self pb dom prob planf in
    write_ma_domain env pb dom (mkdir d (fs w)) = (Ok tt, f1) ->
    write_ma_problem env pb prob f1 = (Ok tt, f2) ->
    launch env cmd timeout os
      {| fs := f2;
         trace := trace w ++ [EvMkdtemp d; EvWriteDomain dom;
                              EvWriteProblem prob] |}
    = (Ok (tmo, (out, err), rv), w3) ->
    isfile planf (fs w3) = true ->
    _plan_from_file env pb planf (fs w3) = (Raise e, f4) ->
    solve_ma env self (VMultiAgentProblem pb) timeout os w
    = (Raise e,
       {| fs := rmtree d f4;
          trace := trace w3 ++ [EvIsFile planf true; EvPlanFromFile planf;
                                EvCleanup d] |}).
Proof.
  intros self pb timeout os w f1 f2 tmo out err rv w3 e f4 d dom prob planf
    cmd. subst d dom prob planf cmd.
  intros Hdom Hprob Hrun Hfile Hparse.
  unfold solve_ma, with_TemporaryDirectory, solve_ma_block.
  unfold bind at 1.
  unfold bind at 1, emit at 1. cbn [fs trace].
  unfold bind at 1, call at 1. cbn [fs trace]. rewrite Hdom.
  unfold bind at 1, emit at 1. cbn [fs trace].
  unfold bind at 1, call at 1. cbn [fs trace]. rewrite Hprob.
  rewrite <- !app_assoc. cbn [app].
  unfold bind at 1. rewrite Hrun.
  unfold bind at 1, read_plan, bind, emit, call. cbn [fs trace].
  rewrite Hfile. cbn [fs trace]. rewrite Hparse.
  cbn [fs trace]. rewrite <- !app_assoc. reflexivity.
Qed.

Lemma prefix_append (s t : string) : String.prefix s (s +:+ t) = true.
Proof.
  induction s as [|c s IH]; [by destruct t|].
  change (String c s +:+ t) with (String c (s +:+ t)). simpl.
  by destruct (ascii_dec c c).
Qed.

Lemma append_assoc (s t u : string) : (s +:+ t) +:+ u = s +:+ (t +:+ u).
Proof.
  induction s as [|c s IH]; [reflexivity|].
  change ((String c s +:+ t) +:+ u) with (String c ((s +:+ t) +:+ u)).
  by rewrite IH.
Qed.

Lemma under_join (d b : string) :
  d <> "" -> endswith_sep d = false -> startswith_sep b = false ->
  under d (os_path_join d b) = true.
Proof.
  intros Hd Hsep Hb. unfold os_path_join. rewrite Hb, Hsep.
  destruct d as [|c d]; [done|]. cbn [String.eqb orb].
  unfold under. rewrite <- append_assoc, prefix_append.
  apply orb_true_r.
Qed.

Lemma solve_ma_final_fs self pb timeout os w :
  exists f,
    fs (snd (solve_ma env self (VMultiAgentProblem pb) timeout os w))
    = rmtree (mkdtemp env (fs w)) f.
Proof.
  unfold solve_ma, bind, with_TemporaryDirectory, ret.
  destruct (solve_ma_block _ _ _ _ _ _ _) as [[b|e] w3]; [destruct b|];
    eexists; reflexivity.
Qed.

(** X13. The plan file does not outlive the call: however [solve_ma] ends on a
    multi-agent problem, no file is left at [<tempdir>/plan.txt], provided
    the name of the directory is not empty and does not end in a slash;
    the plan has been read into the result before. *)
Theorem solve_ma_plan_file_removed :
  forall self pb timeout os w,
    let d := mkdtemp env (fs w) in
    d <> "" -> endswith_sep d = false ->
    isfile (os_path_join d "plan.txt")
      (fs (snd (solve_ma env self (VMultiAgentProblem pb) timeout os w)))
    = false.
Proof.
  intros self pb timeout os w d Hd Hsep.
  destruct (solve_ma_final_fs self pb timeout os w) as [f ->]. fold d.
  unfold isfile. apply bool_decide_eq_false.
  apply rmtree_gone. by apply under_join.
Qed.

Lemma keeps_fs_bind {A B} (m : M A) (k : A -> M B) :
  keeps_fs m -> (forall a, keeps_fs (k a)) -> keeps_fs (bind m k).
Proof.
  intros Hm Hk w. unfold bind. specialize (Hm w).
  destruct (m w) as [[a|e] w0]; simpl in *; [|exact Hm].
  by rewrite Hk.
Qed.

Lemma keeps_fs_call {A} (x : Ext A) : fs_neutral x -> keeps_fs (call x).
Proof.
  intros Hx w. unfold call. specialize (Hx (fs w)).
  by destruct (x (fs w)).
Qed.

Lemma keeps_fs_call_logged {A} (x : Ext A) ev :
  fs_neutral x -> keeps_fs (call_logged x ev).
Proof.
  intros Hx w. unfold call_logged. specialize (Hx (fs w)).
  by destruct (x (fs w)).
Qed.

Lemma keeps_fs_block self pb timeout os d :
  read_only_env env -> keeps_fs (solve_ma_block env self pb timeout os d).
Proof.
  intros (Hdom & Hprob & Hcomm & Hasync & Hposix & Hparse).
  unfold solve_ma_block.
  repeat (apply keeps_fs_bind; [|intros ?]);
    try (intros ?; reflexivity);
    try (by apply keeps_fs_call).
  - unfold launch, run_buffered, run_streamed. destruct os as [stream|].
    + apply keeps_fs_call_logged. destruct (select_runner env); auto.
    + apply keeps_fs_bind; [by apply keeps_fs_call_logged|].
      intros [o e rc|]; [|intros ?; reflexivity].
      destruct (decode env o), (decode env e); intros ?; reflexivity.
  - destruct a3 as [[tmo [out err]] rv].
    apply keeps_fs_bind.
    + unfold read_plan.
      repeat (apply keeps_fs_bind; [|intros ?]);
        try (intros ?; reflexivity).
      destruct a3; [|intros ?; reflexivity].
      repeat (apply keeps_fs_bind; [|intros ?]);
        try (intros ?; reflexivity).
      by apply keeps_fs_call.
    + intros pl. destruct (tmo && ne_zero rv)%bool; intros ?; reflexivity.
Qed.

Lemma rmtree_mkdir d f : vacant d f -> rmtree d (mkdir d f) = f.
Proof.
  intros Hv. destruct f as [fl dr]. unfold rmtree, mkdir. simpl. f_equal.
  - apply set_eq. intros p. rewrite elem_of_filter. split; [tauto|].
    intros Hp. split; [|exact Hp].
    destruct (under d p) eqn:Hu; [|reflexivity].
    by destruct (Hv p Hu) as [Hf _].
  - apply set_eq. intros p.
    rewrite elem_of_filter, elem_of_union, elem_of_singleton. split.
    + intros [Hu [-> | Hp]]; [|exact Hp].
      by rewrite under_refl in Hu.
    + intros Hp. split; [|by right].
      destruct (under d p) eqn:Hu; [|reflexivity].
      by destruct (Hv p Hu) as [_ Hd].
Qed.

(** X14. [solve_ma] leaves nothing behind of its own: when the external calls
    do not change the file system and nothing exists at the name picked
    for the temporary directory, the file system after the call is the
    one before it, whether the call returns a result or raises. *)
Theorem solve_ma_restores_fs :
  forall self problem timeout os w,
    read_only_env env ->
    vacant (mkdtemp env (fs w)) (fs w) ->
    fs (snd (solve_ma env self problem timeout os w)) = fs w.
Proof.
  intros self [pb|repr] timeout os w Henv Hvac; [|reflexivity].
  pose proof (keeps_fs_block self pb timeout os (mkdtemp env (fs w)) Henv
                {| fs := mkdir (mkdtemp env (fs w)) (fs w);
                   trace := trace w ++ [EvMkdtemp (mkdtemp env (fs w))] |})
    as Hblock.
  unfold solve_ma, bind, with_TemporaryDirectory, ret.
  destruct (solve_ma_block _ _ _ _ _ _ _) as [[b|e] w3];
    [destruct b|]; simpl in *; rewrite Hblock; by apply rmtree_mkdir.
Qed.
End AdapterMore.

(** ** The theorems at work on the fabricated environment *)

Import Fabricated.

Lemma get_cmd_ma_triples_witness :
  agents two_agents !! 1 = Some {| name := "a2" |}
  /\ _get_cmd_ma jar tuned two_agents "d/" "p/" "plan.txt" !! 6
     = Some "a2_type".
Proof.
  split; [reflexivity|].
  exact (proj1 (proj2 (proj2
           (get_cmd_ma_triples jar tuned two_agents "d/" "p/" "plan.txt"))
           1 _ eq_refl)).
Defined.

(** C3 fails for [FMAPsolver(search_algorithm="")]: the parameter
    is the empty string and the command still carries the [-s] flag,
    followed by an empty value. *)
Lemma empty_algorithm_emits_flag :
  ~ flag_only_if_nonempty "-s" (search_algorithm empty_algorithm)
      (_get_cmd_ma jar empty_algorithm two_agents "d/" "p/" "plan.txt").
Proof.
  intros H. destruct H as (v & Hv & Hne).
  - vm_compute. tauto.
  - injection Hv as <-. by apply Hne.
Qed.

Lemma flag_appended_iff_set_witness :
  ~ In "-s" (_get_cmd_ma jar plain two_agents "d/" "p/" "plan.txt")
  /\ exists pre post,
       _get_cmd_ma jar empty_algorithm two_agents "d/" "p/" "plan.txt"
       = pre ++ ["-s"; ""] ++ post.
Proof.
  split.
  - apply (proj1 (flag_appended_iff_set jar plain two_agents
                    "d/" "p/" "plan.txt"));
      [reflexivity | discriminate | discriminate].
  - apply (proj1 (proj2 (proj2
             (flag_appended_iff_set jar empty_algorithm two_agents
                "d/" "p/" "plan.txt")))).
    reflexivity.
Defined.

(** C10 fails for a solver whose algorithm name carries the plan path:
    the name is copied into the command as it is. *)
Lemma plan_path_inside_algorithm :
  ~ no_token_contains (os_path_join tmp "plan.txt")
      (_get_cmd_ma jar plan_in_algorithm two_agents
         (os_path_join tmp "domain.pddl/") (os_path_join tmp "problem.pddl/")
         (os_path_join tmp "plan.txt")).
Proof.
  intros H. specialize (H "--plan=/tmp/tmpfmap/plan.txt").
  assert (Hc : contains (os_path_join tmp "plan.txt")
                 "--plan=/tmp/tmpfmap/plan.txt" = false).
  { apply H. vm_compute. tauto. }
  vm_compute in Hc. discriminate.
Qed.

Lemma plan_filename_in_no_token_witness :
  no_token_contains "/tmp/tmpfmap/plan.txt"
    (_get_cmd_ma jar tuned two_agents "/tmp/tmpfmap/domain.pddl/"
       "/tmp/tmpfmap/problem.pddl/" "/tmp/tmpfmap/plan.txt").
Proof.
  apply (proj2 (plan_filename_in_no_token jar tuned two_agents tmp)).
  - reflexivity.
  - intros alg [= <-]. reflexivity.
  - intros h [= <-]. reflexivity.
  - intros ag [<- | [<- | []]]; reflexivity.
Defined.


(** A streamed solver that is killed on timeout after leaving a plan
    file: the result has a plan, and the file was there. *)
Lemma solve_ma_plan_only_from_file_witness :
  exists r w1,
    solve_ma (env exit0 killed true) plain (VMultiAgentProblem two_agents)
      None (Some tt) w0 = (Ok r, w1)
    /\ plan r = Some ["a1 move"]
    /\ exists new f_check,
         trace w1 = trace w0 ++ new
         /\ In (EvIsFile "/tmp/tmpfmap/plan.txt"
                  (isfile "/tmp/tmpfmap/plan.txt" f_check)) new
         /\ omap isfile_observed new
            = [isfile "/tmp/tmpfmap/plan.txt" f_check]
         /\ (plan r <> None ->
             isfile "/tmp/tmpfmap/plan.txt" f_check = true
             /\ exists p f,
                  _plan_from_file (env exit0 killed true) two_agents
                    "/tmp/tmpfmap/plan.txt" f_check = (Ok p, f)
                  /\ plan r = Some p)
         /\ (isfile "/tmp/tmpfmap/plan.txt" f_check = false ->
             plan r = None).
Proof.
  eexists _, _. split; [vm_compute; reflexivity|].
  split; [reflexivity|].
  apply (solve_ma_plan_only_from_file (env exit0 killed true) plain
           two_agents None (Some tt) w0).
  vm_compute; reflexivity.
Defined.

(** The same solver streamed and killed on timeout, with and without a
    plan file left behind. *)
Lemma solve_ma_timeout_keeps_plan_witness :
  (exists w1,
      solve_ma (env exit0 killed false) plain (VMultiAgentProblem two_agents)
        None (Some tt) w0
      = (Ok {| status := TIMEOUT; plan := None;
               log_messages := logs_of ["searching"] [];
               engine_name := "FMAP" |}, w1))
  /\ (exists w1,
         solve_ma (env exit0 killed true) plain
           (VMultiAgentProblem two_agents) None (Some tt) w0
         = (Ok {| status := TIMEOUT; plan := Some ["a1 move"];
                  log_messages := logs_of ["searching"] [];
                  engine_name := "FMAP" |}, w1)).
Proof.
  split.
  - eapply (proj1 (solve_ma_timeout_keeps_plan (env exit0 killed false)
                     plain two_agents None (Some tt) w0 _ _ _ _ _ _
                     eq_refl eq_refl eq_refl eq_refl)).
    vm_compute; reflexivity.
  - eapply (proj2 (solve_ma_timeout_keeps_plan (env exit0 killed true)
                     plain two_agents None (Some tt) w0 _ _ _ _ _ _
                     eq_refl eq_refl eq_refl eq_refl)).
    + vm_compute; reflexivity.
    + reflexivity.
Defined.

Lemma solve_ma_removes_tempdir_witness :
  under tmp "/tmp/tmpfmap/plan.txt" = true
  /\ "/tmp/tmpfmap/plan.txt"
       ∉ files (fs (snd (solve_ma (env exit0 killed true) plain
                           (VMultiAgentProblem two_agents) None None w0))).
Proof.
  split; [reflexivity|].
  apply (proj1 (proj2 (solve_ma_removes_tempdir (env exit0 killed true)
                         plain (VMultiAgentProblem two_agents) None None w0))).
  reflexivity.
Defined.

(** Two calls in a row against a solver that exits 0 without a plan. *)
Lemma solve_ma_repeatable_witness :
  exists r1 w1 r2 w2,
    solve_ma (env exit0 killed false) tuned (VMultiAgentProblem two_agents)
      None None w0 = (Ok r1, w1)
    /\ solve_ma (env exit0 killed false) tuned
         (VMultiAgentProblem two_agents) None None w1 = (Ok r2, w2)
    /\ status r1 = UNSOLVABLE_PROVEN
    /\ status r1 = status r2.
Proof.
  eexists _, _, _, _.
  split; [vm_compute; reflexivity|].
  split; [vm_compute; reflexivity|].
  split; [reflexivity|].
  eapply (solve_ma_repeatable (env exit0 killed false) tuned two_agents
            None None w0 _ _ _ _ quiet_run quiet_run).
  - vm_compute. reflexivity.
  - vm_compute. reflexivity.
  - vm_compute. reflexivity.
  - vm_compute. reflexivity.
  - reflexivity.
  - reflexivity.
Defined.

(** A buffered solver that outlives the timeout. *)
Lemma solve_ma_buffered_timeout_witness :
  exists pl w1,
    solve_ma (env TimeoutExpired killed false) plain
      (VMultiAgentProblem two_agents) (Some 5%Z) None w0
    = (Ok {| status := TIMEOUT; plan := pl;
             log_messages := [ {| level := INFO; message := "" |};
                               {| level := ERROR; message := "" |} ];
             engine_name := "FMAP" |}, w1).
Proof.
  eapply (proj2 (solve_ma_buffered_timeout (env TimeoutExpired killed false)
                   plain two_agents (Some 5%Z) w0 _ _ _
                   eq_refl eq_refl eq_refl _)).
  Unshelve. vm_compute. discriminate.
Defined.

(** ** The further theorems on the fabricated environment *)

Lemma get_cmd_ma_agents_inj_witness :
  _get_cmd_ma jar tuned two_agents "d/" "p/" "plan.txt"
  = _get_cmd_ma jar tuned
      {| agents := [ {| name := "a1" |}; {| name := "a2" |} ] |}
      "d/" "p/" "other.txt"
  /\ agents two_agents = [ {| name := "a1" |}; {| name := "a2" |} ].
Proof.
  split; [reflexivity|].
  exact (get_cmd_ma_agents_inj jar tuned two_agents
           {| agents := [ {| name := "a1" |}; {| name := "a2" |} ] |}
           "d/" "p/" "plan.txt" "other.txt" eq_refl).
Defined.

Lemma agent_paths_outside_tempdir_witness :
  startswith_sep tmp = true
  /\ under tmp "ma_pddl_/tmp/tmpfmap/domain.pddl/a1_domain.pddl" = false.
Proof.
  split; [reflexivity|].
  exact (proj1 (agent_paths_outside_tempdir tmp {| name := "a1" |} eq_refl)).
Defined.

Lemma solve_ma_status_plan_consistent_witness :
  exists r w1,
    solve_ma (env exit137 killed true) plain (VMultiAgentProblem two_agents)
      None None w0 = (Ok r, w1)
    /\ ((status r = SOLVED_SATISFICING /\ plan r <> None)
        \/ (status r = UNSOLVABLE_PROVEN /\ plan r = None)
        \/ status r = INTERNAL_ERROR
        \/ status r = TIMEOUT).
Proof.
  eexists _, _. split; [vm_compute; reflexivity|].
  eapply (solve_ma_status_plan_consistent (env exit137 killed true) plain
           two_agents None None w0 _ _).
  vm_compute. reflexivity.
Defined.

Lemma solve_ma_call_order_witness :
  exists r w1,
    solve_ma (env exit0 killed true) tuned (VMultiAgentProblem two_agents)
      None (Some tt) w0 = (Ok r, w1)
    /\ exists ev found,
         trace w1 = trace w0 ++ run_trace tmp ev found
         /\ exists res,
              ev = EvRunCommand RunPosixSelect
                     (_get_cmd_ma jar tuned two_agents
                        (os_path_join tmp "domain.pddl/")
                        (os_path_join tmp "problem.pddl/")
                        (os_path_join tmp "plan.txt"))
                     (Ok res).
Proof.
  eexists _, _. split; [vm_compute; reflexivity|].
  eapply (solve_ma_call_order (env exit0 killed true) tuned two_agents
           None (Some tt) w0 _ _).
  vm_compute. reflexivity.
Defined.

Lemma solve_ma_streamed_result_witness :
  exists r w1,
    solve_ma (env exit0 killed false) plain (VMultiAgentProblem two_agents)
      None (Some tt) w0 = (Ok r, w1)
    /\ exists tmo out err rv,
         In (EvRunCommand RunPosixSelect
               (_get_cmd_ma jar plain two_agents
                  (os_path_join tmp "domain.pddl/")
                  (os_path_join tmp "problem.pddl/")
                  (os_path_join tmp "plan.txt"))
               (Ok (tmo, (out, err), rv)))
            (trace w1)
         /\ log_messages r
            = [ {| level := INFO; message := String.concat "" out |};
                {| level := ERROR; message := String.concat "" err |} ]
         /\ engine_name r = "FMAP"
         /\ (status r = TIMEOUT <-> tmo = true /\ ne_zero rv = true).
Proof.
  eexists _, _. split; [vm_compute; reflexivity|].
  eapply (solve_ma_streamed_result (env exit0 killed false) plain
           two_agents None tt w0 _ _).
  vm_compute. reflexivity.
Defined.

Lemma solve_ma_buffered_result_witness :
  exists r w1,
    solve_ma (env exit137 killed true) plain (VMultiAgentProblem two_agents)
      None None w0 = (Ok r, w1)
    /\ status r = INTERNAL_ERROR
    /\ exists c,
         In (EvPopen (_get_cmd_ma jar plain two_agents
                        (os_path_join tmp "domain.pddl/")
                        (os_path_join tmp "problem.pddl/")
                        (os_path_join tmp "plan.txt")) (Ok c))
            (trace w1)
         /\ match c with
            | Completed o e rc =>
                exists so se,
                  decode (env exit137 killed true) o = Some so
                  /\ decode (env exit137 killed true) e = Some se
                  /\ log_messages r
                     = [ {| level := INFO; message := so |};
                         {| level := ERROR; message := se |} ]
                  /\ status r <> TIMEOUT
                  /\ (rc <> 0%Z -> status r = INTERNAL_ERROR)
            | TimeoutExpired => status r = TIMEOUT
            end.
Proof.
  eexists _, _. split; [vm_compute; reflexivity|].
  split; [reflexivity|].
  eapply (solve_ma_buffered_result (env exit137 killed true) plain
           two_agents None w0 _ _).
  vm_compute. reflexivity.
Defined.

(** Exit status 137 with a plan file left behind. *)
Lemma solve_ma_nonzero_exit_witness :
  exists w1,
    solve_ma (env exit137 killed true) plain (VMultiAgentProblem two_agents)
      None None w0
    = (Ok {| status := INTERNAL_ERROR; plan := Some ["a1 move"];
             log_messages := logs_of [""] [""];
             engine_name := "FMAP" |}, w1).
Proof.
  eapply (proj2 (solve_ma_nonzero_exit (env exit137 killed true) plain
                   two_agents None None w0 _ _ _ _ _ _
                   eq_refl eq_refl eq_refl eq_refl)).
  - vm_compute. reflexivity.
  - reflexivity.
Defined.

Lemma solve_ma_writer_fault_witness :
  fst (solve_ma (faulty (Raise disk_full) (Ok tt) (Ok exit0) (Ok []) true)
         plain (VMultiAgentProblem two_agents) None None w0)
  = Raise disk_full
  /\ trace (snd (solve_ma
                   (faulty (Ok tt) (Raise disk_full) (Ok exit0) (Ok []) true)
                   plain (VMultiAgentProblem two_agents) None None w0))
     = [ EvMkdtemp tmp; EvWriteDomain (os_path_join tmp "domain.pddl/");
         EvWriteProblem (os_path_join tmp "problem.pddl/"); EvCleanup tmp ].
Proof.
  split.
  - rewrite (proj1 (solve_ma_writer_fault
                      (faulty (Raise disk_full) (Ok tt) (Ok exit0) (Ok []) true)
                      plain two_agents None None w0 disk_full)
               _ eq_refl).
    reflexivity.
  - rewrite (proj2 (solve_ma_writer_fault
                      (faulty (Ok tt) (Raise disk_full) (Ok exit0) (Ok []) true)
                      plain two_agents None None w0 disk_full)
               _ _ eq_refl eq_refl).
    reflexivity.
Defined.

Lemma solve_ma_buffered_fault_witness :
  fst (solve_ma (faulty (Ok tt) (Ok tt) (Raise no_java) (Ok []) true)
         plain (VMultiAgentProblem two_agents) None None w0)
  = Raise no_java
  /\ fst (solve_ma (faulty (Ok tt) (Ok tt) (Ok exit0) (Ok []) false)
            plain (VMultiAgentProblem two_agents) None None w0)
     = Raise UnicodeDecodeError.
Proof.
  split.
  - rewrite (proj1 (solve_ma_buffered_fault
                      (faulty (Ok tt) (Ok tt) (Raise no_java) (Ok []) true)
                      plain two_agents None w0 _ _ _ eq_refl eq_refl)
               no_java eq_refl).
    reflexivity.
  - rewrite (proj2 (solve_ma_buffered_fault
                      (faulty (Ok tt) (Ok tt) (Ok exit0) (Ok []) false)
                      plain two_agents None w0 _ _ _ eq_refl eq_refl)
               [] [] 0%Z eq_refl (or_introl eq_refl)).
    reflexivity.
Defined.

Lemma solve_ma_parser_fault_witness :
  fst (solve_ma (faulty (Ok tt) (Ok tt) (Ok TimeoutExpired) (Raise bad_plan)
                   true)
         plain (VMultiAgentProblem two_agents) (Some 5%Z) None w0)
  = Raise bad_plan.
Proof.
  erewrite (solve_ma_parser_fault
              (faulty (Ok tt) (Ok tt) (Ok TimeoutExpired) (Raise bad_plan)
                 true)
              plain two_agents (Some 5%Z) None w0 _ _ _ _ _ _ _ bad_plan _
              eq_refl eq_refl).
  - reflexivity.
  - vm_compute. reflexivity.
  - vm_compute. reflexivity.
  - reflexivity.
Defined.

Lemma solve_ma_plan_file_removed_witness :
  isfile "/tmp/tmpfmap/plan.txt"
    (fs (snd (solve_ma (env exit0 killed true) plain
                (VMultiAgentProblem two_agents) None None w0)))
  = false.
Proof.
  apply (solve_ma_plan_file_removed (env exit0 killed true) plain two_agents
           None None w0); [discriminate | reflexivity].
Defined.

Lemma solve_ma_restores_fs_witness :
  fs (snd (solve_ma (env exit0 killed false) tuned
             (VMultiAgentProblem two_agents) None (Some tt) w0))
  = fs w0.
Proof.
  apply (solve_ma_restores_fs (env exit0 killed false) tuned
           (VMultiAgentProblem two_agents) None (Some tt) w0).
  - repeat split; intros; intros f; reflexivity.
  - intros p Hp. split; [unfold w0; cbn [fs files]; apply not_elem_of_empty|].
    intros Hin. unfold w0 in Hin. cbn [fs dirs] in Hin.
    apply elem_of_singleton in Hin. subst p.
    vm_compute in Hp. discriminate.
Defined.
